(** * uti_plot: the plotting facade of SRW (env/python/srwpy/uti_plot.py)

    A shallow embedding of the module under the semantics of Python 3:
    Python values, the exceptions the module can raise, the process-wide
    [_backend] handle with its three variants, and the facade functions
    that normalise their arguments and delegate to the active backend.
    Line numbers refer to uti_plot.py. *)

From Stdlib Require Import ZArith String List Bool Lia.
From Stdlib Require Import SpecFloat.
From stdpp Require Import base list strings pretty.

Local Open Scope Z_scope.
Local Open Scope string_scope.
Set Warnings "-register-all".

(** ** Exceptions and results *)

Inductive exn : Type :=
| ValueError (msg : string)
| Exception (msg : string)
| NameError (name : string)
| TypeError
| IndexError
| ZeroDivisionError
| OverflowError
| RecursionError
| ExternalError (msg : string).  (* raised by code outside the module *)

Inductive result (A : Type) : Type :=
| Return (a : A)
| Raise (e : exn).
Arguments Return {A} a.
Arguments Raise {A} e.

(** [result] is the error monad of the development; stdpp's notation
    [x ← r; k] sequences two steps and stops at the first exception. *)
Global Instance result_ret : MRet result := fun A a => Return a.
Global Instance result_bind : MBind result := fun A B k r =>
  match r with
  | Return a => k a
  | Raise e => Raise e
  end.

(** ** Floats

    The module never inspects a float; it only applies Python's operators
    to the numbers it is given.  The primitives of CPython's [float] are an
    interface, instantiated below with IEEE 754 binary64. *)

Class PyFloat : Type := {
  float : Type;
  (** [float(n)]; [None] is OverflowError *)
  float_of_int : Z -> option float;
  float_sub : float -> float -> float;
  float_mul : float -> float -> float;
  (** [a / b] for a non-zero [b] *)
  float_div : float -> float -> float;
  (** [f == 0] *)
  float_is_zero : float -> bool;
  (** [a / b] on ints, for a non-zero [b]; [None] is OverflowError *)
  int_truediv : Z -> Z -> option float;
  (** [round(f, 6)] *)
  float_round6 : float -> float;
  (** [str(f)] *)
  float_str : float -> string
}.

Section Model.
Context {FL : PyFloat}.

(** ** Values *)

(** Numbers: [bool] is a subclass of [int]. *)
Inductive number : Type :=
| NInt (z : Z)
| NBool (b : bool)
| NFloat (f : float).

(** [VArray] is an [array.array]; [VObject] is any other object (a numpy
    array, an image, ...): the module only passes it on, and it supports
    none of the operators below. *)
Inductive value : Type :=
| VNone
| VNum (n : number)
| VStr (s : string)
| VList (xs : list value)
| VTuple (xs : list value)
| VArray (xs : list value)
| VObject (id : nat).

Definition as_int (n : number) : option Z :=
  match n with
  | NInt z => Some z
  | NBool b => Some (Z.b2z b)
  | NFloat _ => None
  end.

Definition to_float (n : number) : result float :=
  match n with
  | NFloat f => Return f
  | NInt z => match float_of_int z with Some f => Return f | None => Raise OverflowError end
  | NBool b => match float_of_int (Z.b2z b) with Some f => Return f | None => Raise OverflowError end
  end.

(** [m - n] *)
Definition num_sub (m n : number) : result number :=
  match as_int m, as_int n with
  | Some a, Some b => Return (NInt (a - b))
  | _, _ => x ← to_float m; y ← to_float n; Return (NFloat (float_sub x y))
  end.

(** [m * n] *)
Definition num_mul (m n : number) : result number :=
  match as_int m, as_int n with
  | Some a, Some b => Return (NInt (a * b))
  | _, _ => x ← to_float m; y ← to_float n; Return (NFloat (float_mul x y))
  end.

(** [m / n] (true division) *)
Definition num_truediv (m n : number) : result number :=
  match as_int m, as_int n with
  | Some a, Some b =>
      if Z.eqb b 0 then Raise ZeroDivisionError
      else match int_truediv a b with
           | Some f => Return (NFloat f)
           | None => Raise OverflowError
           end
  | _, _ =>
      x ← to_float m; y ← to_float n;
      if float_is_zero y then Raise ZeroDivisionError
      else Return (NFloat (float_div x y))
  end.

(** [n != 0] *)
Definition num_ne0 (n : number) : bool :=
  match n with
  | NInt z => negb (Z.eqb z 0)
  | NBool b => b
  | NFloat f => negb (float_is_zero f)
  end.

(** [round(n, 6)]: an int (or bool) rounds to the int itself. *)
Definition num_round6 (n : number) : number :=
  match n with
  | NInt z => NInt z
  | NBool b => NInt (Z.b2z b)
  | NFloat f => NFloat (float_round6 f)
  end.

(** [str(n)] *)
Definition num_str (n : number) : string :=
  match n with
  | NInt z => pretty z
  | NBool true => "True"
  | NBool false => "False"
  | NFloat f => float_str f
  end.

(** [a - b]: defined on numbers only in this universe of values *)
Definition py_sub (a b : value) : result number :=
  match a, b with
  | VNum m, VNum n => num_sub m n
  | _, _ => Raise TypeError
  end.

(** [v is None] *)
Definition is_None (v : value) : bool :=
  match v with VNone => true | _ => false end.

(** [len(v)] *)
Definition py_len (v : value) : result nat :=
  match v with
  | VList xs | VTuple xs | VArray xs => Return (length xs)
  | VStr s => Return (String.length s)
  | _ => Raise TypeError
  end.

(** [v[i]] for an index [i >= 0] *)
Definition py_getitem (v : value) (i : nat) : result value :=
  match v with
  | VList xs | VTuple xs | VArray xs =>
      match xs !! i with
      | Some x => Return x
      | None => Raise IndexError
      end
  | VStr s =>
      match String.get i s with
      | Some c => Return (VStr (String c EmptyString))
      | None => Raise IndexError
      end
  | _ => Raise TypeError
  end.

(** [v + 'literal'] *)
Definition add_str (v : value) (lit : string) : result string :=
  match v with
  | VStr s => Return (s +:+ lit)
  | _ => Raise TypeError
  end.

(** ['...' + v] for a left operand that is a [str] *)
Definition str_add (s : string) (v : value) : result string :=
  match v with
  | VStr t => Return (s +:+ t)
  | _ => Raise TypeError
  end.

(** [l[i] = v] on a list *)
Definition list_setitem (l : list value) (i : nat) (v : value) : result (list value) :=
  if (i <? length l)%nat then Return (<[i:=v]> l) else Raise IndexError.

(** ** Name resolution

    Names bound in the module's global namespace once it is loaded: the
    imports (lines 33-38), the assignments (lines 40, 42, 302), the
    functions and the classes. *)
Definition module_globals : list string :=
  ["uti_plot_com"; "sys"; "traceback"; "_backend"; "DEFAULT_BACKEND";
   "uti_plot_init"; "uti_plot_show"; "uti_plot1d"; "uti_plot1d_ir";
   "uti_plot1d_m"; "uti_plot2d"; "uti_plot2d1d"; "uti_plot_data_file";
   "uti_data_file_plot"; "_BackendBase"; "_BackendMissing"; "_BackendNone"].

(** The builtins the module refers to. *)
Definition builtins : list string :=
  ["isinstance"; "list"; "tuple"; "len"; "range"; "str"; "round";
   "getattr"; "print"; "object"; "Exception"; "ValueError"].

(** Loading a global name: module globals first, then builtins. *)
Definition load_global (name : string) : result unit :=
  if bool_decide (name ∈ (module_globals ++ builtins)%list) then Return tt
  else Raise (NameError name).

Inductive pytype : Type := list_t | tuple_t | array_t.

Definition isinstance (v : value) (t : pytype) : bool :=
  match v, t with
  | VList _, list_t => true
  | VTuple _, tuple_t => true
  | VArray _, array_t => true
  | _, _ => false
  end.

(** [isinstance(v, name)], where [name] would denote the type [t]: the
    name is loaded before the test is made. *)
Definition isinstance_of (v : value) (name : string) (t : pytype) : result bool :=
  load_global name;;
  Return (isinstance v t).

(** ** The backend handle and the observable events *)

(** The three variants of the process-wide [_backend]:
    [_BackendMissing()] (line 302), [_BackendNone()] (line 69) and
    [uti_plot_matplotlib.Backend(backend, fname_format)] (line 61). *)
Inductive handle : Type :=
| _BackendMissing
| _BackendNone
| Backend (backend : string) (fname_format : option string).

Definition kwargs_t : Type := list (string * value).

(** What the module does to the outside: constructing the plotting
    backend, printing, and entering a method of the plotting backend. *)
Inductive event : Type :=
| EvBackend (backend : string) (fname_format : option string)
| EvPrintExc
| EvPrint (s : string)
| EvCall (method : string) (args : list value) (kwargs : kwargs_t).

Record state : Type := mkState {
  _backend : handle;
  log : list event
}.

(** ** External collaborators

    [uti_plot_com.rescale_dim], the import and constructor of
    [uti_plot_matplotlib.Backend] and the methods of that backend are not
    part of the module.  Each may depend on everything that happened
    before, and each may raise. *)
Class Collaborators : Type := {
  (** [uti_plot_com.rescale_dim(range, unit)] returns a pair *)
  rescale_dim : value -> value -> result (value * value);
  (** does [from . import uti_plot_matplotlib] followed by
      [uti_plot_matplotlib.Backend(backend, fname_format)] succeed? *)
  Backend_constructs : list event -> string -> option string -> bool;
  (** the outcome of a method of the plotting backend *)
  Backend_method : list event -> string -> list value -> kwargs_t -> result value
}.

Context {CO : Collaborators}.

(** ** The state monad of the module *)

Definition M (A : Type) : Type := state -> result A * state.

Global Instance M_ret : MRet M := fun A a st => (Return a, st).
Global Instance M_bind : MBind M := fun A B k m st =>
  match m st with
  | (Return a, st') => k a st'
  | (Raise e, st') => (Raise e, st')
  end.

Definition lift {A} (r : result A) : M A := fun st => (r, st).
Definition raise {A} (e : exn) : M A := fun st => (Raise e, st).
Definition emit (ev : event) : M unit :=
  fun st => (Return tt, mkState (_backend st) (log st ++ [ev])).
Definition get_log : M (list event) := fun st => (Return (log st), st).
Definition get_backend : M handle := fun st => (Return (_backend st), st).
Definition set_backend (h : handle) : M unit :=
  fun st => (Return tt, mkState h (log st)).

(** ** Backend selection (lines 40-69) *)

Definition DEFAULT_BACKEND : string := "<default>".

(** [backend] and [fname_format] are typed as their docstring types them:
    a [str] or [None]. *)
Definition uti_plot_init (backend fname_format : option string) : M value :=
  match backend with
  | Some b =>
      (* try: *)
      past ← get_log;
      emit (EvBackend b fname_format);;
      if Backend_constructs past b fname_format then
        set_backend (Backend b fname_format);;
        mret VNone
      else
        (* except: *)
        emit EvPrintExc;;
        emit (EvPrint (b +:+ ": unable to import specified backend (or its dependency); no plots"));;
        set_backend _BackendNone;;
        mret VNone
  | None =>
      match fname_format with
      | Some f =>
          raise (ValueError (f +:+ ": fname_format must be null if backend is None"))
      | None =>
          set_backend _BackendNone;;
          mret VNone
      end
  end.

(** The notice of line 65. *)
Definition unable_notice (b : string) : string :=
  b +:+ ": unable to import specified backend (or its dependency); no plots".

(** How many times the log records an attempt to construct the plotting
    backend, that is an initialisation with a backend that is not [None]. *)
Fixpoint constructions (l : list event) : nat :=
  match l with
  | [] => O
  | EvBackend _ _ :: l' => S (constructions l')
  | _ :: l' => constructions l'
  end.

(** The attempt that [uti_plot_init()] makes. *)
Definition default_init : event := EvBackend DEFAULT_BACKEND None.

(** ** Dispatch on the handle (lines 287-302)

    [_backend.attr] called with [args] and [kwargs] in the body of the
    function named [caller].  The two proxy classes define no plotting
    method, so [attr] resolves through [_BackendBase.__getattr__] to
    [_backend_call].  [_BackendNone._backend_call] is [pass];
    [_BackendMissing._backend_call] initialises, reads the name of the
    calling frame ([sys._getframe(1).f_code.co_name]) and calls the method
    of that name on the new [_backend] with the positional arguments only.
    [depth] bounds the nesting of [_backend_call] frames. *)
Fixpoint call_backend (depth : nat) (caller attr : string)
    (args : list value) (kwargs : kwargs_t) : M value :=
  h ← get_backend;
  match h with
  | Backend _ _ =>
      past ← get_log;
      emit (EvCall attr args kwargs);;
      lift (Backend_method past attr args kwargs)
  | _BackendNone =>
      (* pass *)
      mret VNone
  | _BackendMissing =>
      match depth with
      | O => raise RecursionError
      | S depth' =>
          uti_plot_init (Some DEFAULT_BACKEND) None;;
          let method_name := caller in
          (* func = getattr(_backend, method_name); return func( *args) *)
          call_backend depth' "_backend_call" method_name args []
      end
  end.

(** [sys.getrecursionlimit()] *)
Definition recursion_limit : nat := 1000.

(** The last statement of a facade function [name]:
    [_backend.name(args)], after which the function returns [None]. *)
Definition delegate (name : string) (args : list value) : M value :=
  call_backend recursion_limit name name args [];;
  mret VNone.

(** ** Label decoration *)

(** [labels[i] + ' [' + units[i] + ']'] *)
Definition with_unit (labels units : value) (i : nat) : result value :=
  l ← py_getitem labels i;
  a ← add_str l " [";
  u ← py_getitem units i;
  b ← str_add a u;
  Return (VStr (b +:+ "]")).

(** Lines 88-89, 108-109, 142-143 and 166-167:
    [strTitle = '' if(len(labels) < 3) else labels[2]] and the rebuilt
    label tuple. *)
Definition decorate_labels (labels units : value) : result value :=
  n ← py_len labels;
  strTitle ← (if (n <? 3)%nat then Return (VStr "") else py_getitem labels 2);
  l0 ← with_unit labels units 0;
  l1 ← with_unit labels units 1;
  Return (VTuple [l0; l1; strTitle]).

(** ** Facade functions *)

Definition uti_plot_show : M value :=
  delegate "uti_plot_show" [].

Definition uti_plot1d (ar1d x_range labels units : value) : M value :=
  '(x_range, labels) ← lift (
    if negb (is_None units) then
      u0 ← py_getitem units 0;
      '(x_range, x_unit) ← rescale_dim x_range u0;
      u1 ← py_getitem units 1;
      let units := VList [x_unit; u1] in
      labels ← decorate_labels labels units;
      Return (x_range, labels)
    else Return (x_range, labels));
  delegate "uti_plot1d" [ar1d; x_range; labels].

(** Lines 114-115: the container test of [uti_plot1d_ir]. *)
Definition check_container (ary0 : value) : result unit :=
  accepted ← (
    is_list ← isinstance_of ary0 "list" list_t;
    if is_list : bool then Return true
    else
      is_array ← isinstance_of ary0 "array" array_t;
      if is_array : bool then Return true
      else isinstance_of ary0 "tuple" tuple_t);
  if negb accepted
  then Raise (Exception "Incorrect definition of data arrays / lists to be plotted")
  else Return tt.

(** Lines 122-125: the loop over [range(lenData)]. *)
Fixpoint split_pairs (ary : value) (indices : list nat) (arx aryNew : list value)
    : result (list value * list value) :=
  match indices with
  | [] => Return (arx, aryNew)
  | i :: rest =>
      ay_i ← py_getitem ary i;
      a ← py_getitem ay_i 0;
      arx ← list_setitem arx i a;
      b ← py_getitem ay_i 1;
      aryNew ← list_setitem aryNew i b;
      split_pairs ary rest arx aryNew
  end.

(** [p] can be read as the pair [xy]: [p[0]] and [p[1]] are its components. *)
Definition is_pair (p : value) (xy : value * value) : Prop :=
  py_getitem p 0 = Return xy.1 /\ py_getitem p 1 = Return xy.2.

Definition uti_plot1d_ir (ary arx labels units : value) : M value :=
  labels ← lift (
    if negb (is_None units) then decorate_labels labels units
    else Return labels);
  '(ary, arx) ← lift (
    if is_None arx then
      let ary0 := ary in
      check_container ary0;;
      lenData ← py_len ary;
      let arx := replicate lenData (VNum (NInt 0)) in
      let aryNew := replicate lenData (VNum (NInt 0)) in
      '(arx, aryNew) ← split_pairs ary (seq 0 lenData) arx aryNew;
      Return (VList aryNew, VList arx)
    else Return (ary, arx));
  delegate "uti_plot1d_ir" [ary; arx; labels].

Definition uti_plot1d_m (ars labels units styles legend : value) : M value :=
  labels ← lift (
    if negb (is_None units) then decorate_labels labels units
    else Return labels);
  delegate "uti_plot1d_m" [ars; labels; styles; legend].

Definition uti_plot2d (ar2d x_range y_range labels units : value) : M value :=
  '(x_range, y_range, labels) ← lift (
    if negb (is_None units) && negb (is_None x_range) && negb (is_None y_range) then
      u0 ← py_getitem units 0;
      '(x_range, x_unit) ← rescale_dim x_range u0;
      u1 ← py_getitem units 1;
      '(y_range, y_unit) ← rescale_dim y_range u1;
      u2 ← py_getitem units 2;
      let units := VList [x_unit; y_unit; u2] in
      labels ← decorate_labels labels units;
      Return (x_range, y_range, labels)
    else Return (x_range, y_range, labels));
  delegate "uti_plot2d" [ar2d; x_range; y_range; labels].

(** [range[1] - range[0]] (lines 190-191 and 198-199) *)
Definition extent (range : value) : result number :=
  hi ← py_getitem range 1;
  lo ← py_getitem range 0;
  py_sub hi lo.

(** Lines 198-199: [if(x != 0): x *= (x_range[1] - x_range[0])/xRangeOrig] *)
Definition scale_cut (x : number) (x_range : value) (xRangeOrig : number)
    : result number :=
  if num_ne0 x then
    d ← extent x_range;
    q ← num_truediv d xRangeOrig;
    num_mul x q
  else Return x.

(** Lines 207-209 and 213-215: the title of a cut inside the units branch *)
Definition cut_title_units (labels : value) (i : nat) (y : number) (units : value)
    : result string :=
  l ← py_getitem labels i;
  t ← str_add "At " l;
  let strTitle := (t +:+ ": ") +:+ num_str (num_round6 y) in
  if num_ne0 y then
    u ← py_getitem units i;
    s ← str_add " " u;
    Return (strTitle +:+ s)
  else Return strTitle.

(** Lines 222 and 225: the title of a cut when no units are given *)
Definition cut_title (labels : value) (i : nat) (y : number) : result string :=
  l ← py_getitem labels i;
  t ← str_add "At " l;
  Return ((t +:+ ": ") +:+ num_str y).

(** The cut coordinates [x] and [y] are numbers, as documented. *)
Definition uti_plot2d1d (ar2d x_range y_range : value) (x y : number)
    (labels units graphs_joined : value) : M value :=
  '(x_range, y_range, x, y, label2D, label1X, label1Y) ← lift (
    if negb (is_None units) then
      xRangeOrig ← extent x_range;
      yRangeOrig ← extent y_range;
      u0 ← py_getitem units 0;
      '(x_range, x_unit) ← rescale_dim x_range u0;
      u1 ← py_getitem units 1;
      '(y_range, y_unit) ← rescale_dim y_range u1;
      x ← scale_cut x x_range xRangeOrig;
      y ← scale_cut y y_range yRangeOrig;
      u2 ← py_getitem units 2;
      let units := VList [x_unit; y_unit; u2] in
      strTitle ← py_getitem labels 2;
      l0 ← with_unit labels units 0;
      l1 ← with_unit labels units 1;
      let label2D := VTuple [l0; l1; strTitle] in
      strTitle ← cut_title_units labels 1 y units;
      l0 ← with_unit labels units 0;
      l2 ← with_unit labels units 2;
      let label1X := VTuple [l0; l2; VStr strTitle] in
      strTitle ← cut_title_units labels 0 x units;
      l1 ← with_unit labels units 1;
      l2 ← with_unit labels units 2;
      let label1Y := VTuple [l1; l2; VStr strTitle] in
      Return (x_range, y_range, x, y, label2D, label1X, label1Y)
    else
      strTitle ← py_getitem labels 2;
      l0 ← py_getitem labels 0;
      l1 ← py_getitem labels 1;
      let label2D := VTuple [l0; l1; strTitle] in
      strTitle ← cut_title labels 1 y;
      l0 ← py_getitem labels 0;
      l2 ← py_getitem labels 2;
      let label1X := VTuple [l0; l2; VStr strTitle] in
      strTitle ← cut_title labels 0 x;
      l1 ← py_getitem labels 1;
      l2 ← py_getitem labels 2;
      let label1Y := VTuple [l1; l2; VStr strTitle] in
      Return (x_range, y_range, x, y, label2D, label1X, label1Y));
  let labels := VList [label2D; label1X; label1Y] in
  delegate "uti_plot2d1d"
    [ar2d; x_range; y_range; VNum x; VNum y; labels; graphs_joined].

Definition uti_plot_data_file
    (_fname _read_labels _e _x _y _graphs_joined _multicolumn_data
     _column_x _column_y _scale _width_pixels : value) : M value :=
  delegate "uti_plot_data_file"
    [_fname; _read_labels; _e; _x; _y; _graphs_joined;
     _multicolumn_data; _column_x; _column_y; _scale; _width_pixels].

Definition uti_data_file_plot
    (_fname _read_labels _e _x _y _graphs_joined _multicolumn_data
     _column_x _column_y _scale _width_pixels : value) : M value :=
  uti_plot_data_file _fname _read_labels _e _x _y _graphs_joined
    _multicolumn_data _column_x _column_y _scale _width_pixels;;
  mret VNone.

(** The module as loaded: line 302 installs the proxy. *)
Definition initial_state : state := mkState _BackendMissing [].

End Model.

(** ** IEEE 754 binary64: the floats of CPython

    Doubles are the [spec_float] of the standard library at precision 53.
    Conversions round to nearest, ties to even; [str] is the shortest
    decimal that reads back as the same double, in the layout of
    [float.__repr__]. *)

Module IEEE.
Local Open Scope Z_scope.

Definition prec : Z := 53.
Definition emax : Z := 1024.

(** The double nearest to [n / d], ties to even. *)
Definition of_ratio (neg : bool) (n d : positive) : spec_float :=
  let k := Z.max 0 (Z.log2 (Zpos d) - Z.log2 (Zpos n) + 56) in
  let (q, r) := Z.div_eucl (Zpos n * 2 ^ k) (Zpos d) in
  let m := 2 * q + (if r =? 0 then 0 else 1) in
  binary_normalize prec emax (if neg then - m else m) (- k - 1) false.

Definition finite_or_overflow (f : spec_float) : option spec_float :=
  match f with
  | S754_infinity _ => None
  | _ => Some f
  end.

Definition of_int (z : Z) : option spec_float :=
  finite_or_overflow (binary_normalize prec emax z 0 false).

Definition truediv (a b : Z) : option spec_float :=
  match a, b with
  | _, Z0 => None
  | Z0, _ => Some (S754_zero (b <? 0))
  | Zpos n, Zpos d => finite_or_overflow (of_ratio false n d)
  | Zneg n, Zneg d => finite_or_overflow (of_ratio false n d)
  | Zpos n, Zneg d => finite_or_overflow (of_ratio true n d)
  | Zneg n, Zpos d => finite_or_overflow (of_ratio true n d)
  end.

Definition is_zero (f : spec_float) : bool :=
  match f with
  | S754_zero _ => true
  | _ => false
  end.

(** [m * 2^e] as a fraction *)
Definition fraction (m : positive) (e : Z) : positive * positive :=
  match e with
  | Zneg p => (m, 2 ^ p)%positive
  | _ => (Z.to_pos (Zpos m * 2 ^ e), 1%positive)
  end.

(** [num * 10^s / den] rounded to an integer, ties to even, with the
    neighbour on the other side *)
Definition round_scaled (num den : positive) (s : Z) : Z * Z :=
  let n := if 0 <=? s then Zpos num * 10 ^ s else Zpos num in
  let d := if 0 <=? s then Zpos den else Zpos den * 10 ^ (- s) in
  let (lo, r) := Z.div_eucl n d in
  match 2 * r ?= d with
  | Lt => (lo, lo + 1)
  | Gt => (lo + 1, lo)
  | Eq => if Z.even lo then (lo, lo + 1) else (lo + 1, lo)
  end.

(** [c * 10^(-s)] as a double *)
Definition of_decimal (neg : bool) (c : Z) (s : Z) : spec_float :=
  match c with
  | Zpos c =>
      if 0 <=? s then of_ratio neg c (Z.to_pos (10 ^ s))
      else of_ratio neg (Z.to_pos (Zpos c * 10 ^ (- s))) 1
  | _ => S754_zero neg
  end.

(** [round(f, 6)] *)
Definition round6 (f : spec_float) : spec_float :=
  match f with
  | S754_finite neg m e =>
      let (num, den) := fraction m e in
      of_decimal neg (fst (round_scaled num den 6)) 6
  | _ => f
  end.

(** the largest [p] in [lo, lo + n) with [10^p <= num/den], searched downwards *)
Fixpoint decimal_exponent (num den : positive) (p : Z) (n : nat) : Z :=
  match n with
  | O => p
  | S n' =>
      let ge := if 0 <=? p then Zpos den * 10 ^ p <=? Zpos num
                else Zpos den <=? Zpos num * 10 ^ (- p) in
      if ge then p else decimal_exponent num den (p - 1) n'
  end.

Definition SFsame (a b : spec_float) : bool :=
  match a, b with
  | S754_finite s m e, S754_finite s' m' e' =>
      Bool.eqb s s' && (Zpos m =? Zpos m') && (e =? e')
  | _, _ => false
  end.

(** the shortest decimal that reads back as [f]: its digits, as an
    integer, and the scale [s] with [f ~ digits * 10^(-s)] *)
Fixpoint shortest (f : spec_float) (num den : positive) (p : Z) (k : nat) (n : nat)
    : Z * Z :=
  let s := Z.of_nat k - 1 - p in
  let '(c1, c2) := round_scaled num den s in
  match n with
  | O => (c1, s)
  | S n' =>
      if SFsame (of_decimal false c1 s) f then (c1, s)
      else if SFsame (of_decimal false c2 s) f then (c2, s)
      else shortest f num den p (S k) n'
  end.

Fixpoint strip_zeros (c : Z) (s : Z) (n : nat) : Z * Z :=
  match n with
  | O => (c, s)
  | S n' => if (c mod 10 =? 0) then strip_zeros (c / 10) (s - 1) n' else (c, s)
  end.

Definition zeros (n : Z) : string := String.concat "" (replicate (Z.to_nat n) "0"%string).

Definition pad2 (n : Z) : string :=
  if n <? 10 then ("0" +:+ pretty n)%string else pretty n.

(** [repr] of the decimal [0.digits * 10^decpt] *)
Definition format_repr (digits : string) (decpt : Z) : string :=
  let n := Z.of_nat (String.length digits) in
  if (-4 <? decpt) && (decpt <=? 16) then
    if decpt <=? 0 then "0." +:+ zeros (- decpt) +:+ digits
    else if n <=? decpt then digits +:+ zeros (decpt - n) +:+ ".0"
    else substring 0 (Z.to_nat decpt) digits +:+ "." +:+
         substring (Z.to_nat decpt) (Z.to_nat (n - decpt)) digits
  else
    let x := decpt - 1 in
    substring 0 1 digits +:+
    (if 1 <? n then "." +:+ substring 1 (Z.to_nat (n - 1)) digits else "") +:+
    "e" +:+ (if x <? 0 then "-" else "+") +:+ pad2 (Z.abs x).

(** [str(f)] *)
Definition str (f : spec_float) : string :=
  match f with
  | S754_nan => "nan"
  | S754_infinity false => "inf"
  | S754_infinity true => "-inf"
  | S754_zero false => "0.0"
  | S754_zero true => "-0.0"
  | S754_finite neg m e =>
      let (num, den) := fraction m e in
      let est := (Z.log2 (Zpos num) - Z.log2 (Zpos den)) * 30103 / 100000 in
      let p := decimal_exponent num den (est + 2) 5 in
      let '(c, s) := shortest (S754_finite false m e) num den p 1 16 in
      let '(c, s) := strip_zeros c s 17 in
      let digits := pretty c in
      let decpt := Z.of_nat (String.length digits) - s in
      (if neg then "-" else "") +:+ format_repr digits decpt
  end.

End IEEE.

Global Instance ieee_binary64 : PyFloat := {|
  float := spec_float;
  float_of_int := IEEE.of_int;
  float_sub := SFsub IEEE.prec IEEE.emax;
  float_mul := SFmul IEEE.prec IEEE.emax;
  float_div := SFdiv IEEE.prec IEEE.emax;
  float_is_zero := IEEE.is_zero;
  int_truediv := IEEE.truediv;
  float_round6 := IEEE.round6;
  float_str := IEEE.str
|}.

(** ** Two environments to run the module in *)

Module Env.
Local Open Scope Z_scope.

(** [n * 10^(-s)] as a float literal *)
Definition num (n s : Z) : number := NFloat (IEEE.of_decimal (n <? 0) (Z.abs n) s).
Definition lit (n s : Z) : value := VNum (num n s).

Definition int (n : Z) : value := VNum (NInt n).

(** A rescale collaborator that changes nothing. *)
Definition rescale_id (range unit : value) : result (value * value) :=
  Return (range, unit).

(** A rescale collaborator that turns a range in a base unit into
    thousandths of it. *)
Definition rescale_milli (range unit : value) : result (value * value) :=
  match range, unit with
  | VList [VNum a; VNum b; n], VStr u =>
      a' ← num_mul a (NInt 1000);
      b' ← num_mul b (NInt 1000);
      Return (VList [VNum a'; VNum b'; n], VStr ("m" +:+ u))
  | _, _ => Raise TypeError
  end.

(** No plotting library can be imported. *)
Definition headless : Collaborators := {|
  rescale_dim := rescale_id;
  Backend_constructs := fun _ _ _ => false;
  Backend_method := fun _ _ _ _ => Return VNone
|}.

(** A plotting library is installed and every method of it returns. *)
Definition plotting : Collaborators := {|
  rescale_dim := rescale_milli;
  Backend_constructs := fun _ _ _ => true;
  Backend_method := fun _ _ _ _ => Return VNone
|}.

(** The same plotting library beside a [rescale_dim] that always fails. *)
Definition plotting_without_rescale : Collaborators := {|
  rescale_dim := fun _ _ => Raise (ExternalError "rescale_dim");
  Backend_constructs := fun _ _ _ => true;
  Backend_method := fun _ _ _ _ => Return VNone
|}.

End Env.

(** * Properties *)

Section Properties.
Context {FL : PyFloat} {CO : Collaborators}.
Local Open Scope list_scope.

(** ** The state monad *)

Lemma bind_Return {A B} (m : M A) (k : A -> M B) st a st' :
  m st = (Return a, st') -> (m ≫= k) st = k a st'.
Proof. intros E. unfold mbind, M_bind. now rewrite E. Qed.

Lemma bind_Raise {A B} (m : M A) (k : A -> M B) st e st' :
  m st = (Raise e, st') -> (m ≫= k) st = (Raise e, st').
Proof. intros E. unfold mbind, M_bind. now rewrite E. Qed.

Lemma bind_lift_Return {A B} (r : result A) (k : A -> M B) st a :
  r = Return a -> (lift r ≫= k) st = k a st.
Proof. now intros ->. Qed.

Lemma bind_lift_Raise {A B} (r : result A) (k : A -> M B) st e :
  r = Raise e -> (lift r ≫= k) st = (Raise e, st).
Proof. now intros ->. Qed.

(** ** Backend selection *)

Lemma uti_plot_init_constructs b f st :
  Backend_constructs (log st) b f = true ->
  uti_plot_init (Some b) f st =
    (Return VNone, mkState (Backend b f) (log st ++ [EvBackend b f])).
Proof.
  intros E. unfold uti_plot_init, mbind, M_bind, get_log, emit, set_backend; simpl.
  now rewrite E.
Qed.

Lemma uti_plot_init_falls_back b f st :
  Backend_constructs (log st) b f = false ->
  uti_plot_init (Some b) f st =
    (Return VNone,
     mkState _BackendNone
       (log st ++ [EvBackend b f; EvPrintExc; EvPrint (unable_notice b)])).
Proof.
  intros E. unfold uti_plot_init, mbind, M_bind, get_log, emit, set_backend; simpl.
  rewrite E. simpl. now rewrite <- !app_assoc.
Qed.

(** Once initialised, the handle is never the proxy again. *)
Lemma uti_plot_init_installs backend fname_format st r st' :
  uti_plot_init backend fname_format st = (r, st') ->
  (exists v, r = Return v /\ _backend st' <> _BackendMissing) \/
  (exists e, r = Raise e /\ st' = st).
Proof.
  destruct backend as [b|].
  - destruct (Backend_constructs (log st) b fname_format) eqn:E.
    + rewrite uti_plot_init_constructs by exact E.
      intros [= <- <-]. left. now eexists.
    + rewrite uti_plot_init_falls_back by exact E.
      intros [= <- <-]. left. now eexists.
  - destruct fname_format as [f|]; cbv [uti_plot_init raise]; simpl.
    + intros [= <- <-]. right. now eexists.
    + intros [= <- <-]. left. now eexists.
Qed.

(** C1: [uti_plot_init(None, fname_format)] with a path raises a ValueError
    whose message names [fname_format] and leaves the state (the handle
    included) as it was; [uti_plot_init(None, None)] installs the
    none-backend and returns; and whenever the plotting backend fails to
    construct, the call prints the trace and the notice, installs the
    none-backend and returns. *)
Theorem uti_plot_init_never_fails_on_backend st :
  (forall f,
     uti_plot_init None (Some f) st =
       (Raise (ValueError (f +:+ ": fname_format must be null if backend is None")), st)) /\
  uti_plot_init None None st = (Return VNone, mkState _BackendNone (log st)) /\
  (forall b f,
     Backend_constructs (log st) b f = false ->
     uti_plot_init (Some b) f st =
       (Return VNone,
        mkState _BackendNone
          (log st ++ [EvBackend b f; EvPrintExc; EvPrint (unable_notice b)]))).
Proof.
  split; [|split].
  - reflexivity.
  - reflexivity.
  - intros b f. apply uti_plot_init_falls_back.
Qed.

(** ** Dispatch *)

Lemma constructions_app l l' :
  constructions (l ++ l') = (constructions l + constructions l')%nat.
Proof.
  induction l as [|ev l IH]; [reflexivity|].
  destruct ev; simpl; rewrite IH; reflexivity.
Qed.

Lemma call_backend_none depth caller attr args kwargs st :
  _backend st = _BackendNone ->
  call_backend depth caller attr args kwargs st = (Return VNone, st).
Proof.
  intros E. destruct depth; unfold call_backend, mbind, M_bind, get_backend;
    now rewrite E.
Qed.

Lemma call_backend_real depth caller attr args kwargs st b f :
  _backend st = Backend b f ->
  call_backend depth caller attr args kwargs st =
    (Backend_method (log st) attr args kwargs,
     mkState (_backend st) (log st ++ [EvCall attr args kwargs])).
Proof.
  intros E.
  destruct depth; unfold call_backend, mbind, M_bind, get_backend, get_log, emit, lift;
    rewrite E; simpl; now rewrite ?E.
Qed.

Lemma call_backend_missing depth caller attr args kwargs st :
  _backend st = _BackendMissing ->
  call_backend (S depth) caller attr args kwargs st =
    (uti_plot_init (Some DEFAULT_BACKEND) None;;
     call_backend depth "_backend_call" caller args []) st.
Proof.
  intros E. simpl. unfold mbind at 1, M_bind at 1, get_backend. now rewrite E.
Qed.

(** C2: a facade method [name] called while the handle is the uninitialised
    proxy performs the default initialisation once and then enters the
    method [name] of the backend that initialisation installed, with the
    positional arguments as given and without any keyword argument: the
    plotting backend when it constructs, the none-backend otherwise. *)
Theorem missing_backend_initialises_once depth name args kwargs st :
  _backend st = _BackendMissing ->
  call_backend (S depth) name name args kwargs st =
    (if Backend_constructs (log st) DEFAULT_BACKEND None
     then (Backend_method (log st ++ [default_init]) name args [],
           mkState (Backend DEFAULT_BACKEND None)
             (log st ++ [default_init; EvCall name args []]))
     else (Return VNone,
           mkState _BackendNone
             (log st ++ [default_init; EvPrintExc;
                         EvPrint (unable_notice DEFAULT_BACKEND)])))
  /\ constructions (log (snd (call_backend (S depth) name name args kwargs st)))
     = S (constructions (log st)).
Proof.
  intros E.
  assert (call_backend (S depth) name name args kwargs st =
    (if Backend_constructs (log st) DEFAULT_BACKEND None
     then (Backend_method (log st ++ [default_init]) name args [],
           mkState (Backend DEFAULT_BACKEND None)
             (log st ++ [default_init; EvCall name args []]))
     else (Return VNone,
           mkState _BackendNone
             (log st ++ [default_init; EvPrintExc;
                         EvPrint (unable_notice DEFAULT_BACKEND)])))) as Run.
  { rewrite call_backend_missing by exact E.
    destruct (Backend_constructs (log st) DEFAULT_BACKEND None) eqn:C.
    - erewrite bind_Return by (apply uti_plot_init_constructs; exact C).
      erewrite call_backend_real by reflexivity. simpl.
      now rewrite <- app_assoc.
    - erewrite bind_Return by (apply uti_plot_init_falls_back; exact C).
      now rewrite call_backend_none. }
  split; [exact Run|].
  rewrite Run.
  destruct (Backend_constructs (log st) DEFAULT_BACKEND None); simpl;
    rewrite constructions_app; simpl; lia.
Qed.

(** C9: every method of the none-backend, whatever its name, its
    positional and its keyword arguments, returns [None] and leaves the
    state, the log of effects included, as it was; so does every facade
    function's final call when the none-backend is installed. *)
Theorem none_backend_is_silent depth caller attr args kwargs l :
  call_backend depth caller attr args kwargs (mkState _BackendNone l)
  = (Return VNone, mkState _BackendNone l)
  /\ delegate attr args (mkState _BackendNone l)
  = (Return VNone, mkState _BackendNone l).
Proof.
  split.
  - destruct depth; cbn [call_backend];
      unfold mbind, M_bind, get_backend; reflexivity.
  - unfold delegate. erewrite bind_Return.
    + reflexivity.
    + now apply call_backend_none.
Qed.

(** ** Values *)

Lemma is_None_true v : is_None v = true <-> v = VNone.
Proof. destruct v; simpl; split; congruence. Qed.

Lemma is_None_false v : is_None v = false <-> v <> VNone.
Proof. destruct v; simpl; split; congruence. Qed.

Lemma with_unit_str labels units i l u :
  py_getitem labels i = Return (VStr l) ->
  py_getitem units i = Return (VStr u) ->
  with_unit labels units i = Return (VStr (((l +:+ " [") +:+ u) +:+ "]")).
Proof. intros Hl Hu. unfold with_unit. rewrite Hl. simpl. now rewrite Hu. Qed.

Lemma decorate_labels_str labels units n l0 l1 u0 u1 t :
  py_len labels = Return n ->
  (if (n <? 3)%nat then t = VStr "" else py_getitem labels 2 = Return t) ->
  py_getitem labels 0 = Return (VStr l0) ->
  py_getitem labels 1 = Return (VStr l1) ->
  py_getitem units 0 = Return (VStr u0) ->
  py_getitem units 1 = Return (VStr u1) ->
  decorate_labels labels units =
    Return (VTuple [VStr (((l0 +:+ " [") +:+ u0) +:+ "]");
                    VStr (((l1 +:+ " [") +:+ u1) +:+ "]"); t]).
Proof.
  intros Hn Ht H0 H1 U0 U1. unfold decorate_labels. rewrite Hn. simpl.
  rewrite (with_unit_str _ _ _ _ _ H0 U0), (with_unit_str _ _ _ _ _ H1 U1).
  destruct (n <? 3)%nat; [now subst t|]. now rewrite Ht.
Qed.

(** ** The facade functions *)

Lemma delegate_returns_None name args st v st' :
  delegate name args st = (Return v, st') -> v = VNone.
Proof.
  unfold delegate, mbind, M_bind, mret, M_ret.
  destruct (call_backend _ _ _ _ _ _) as [[w|e] st1]; congruence.
Qed.

Lemma then_None_idem (m : M value) st :
  (forall v st', m st = (Return v, st') -> v = VNone) ->
  (m;; mret VNone) st = m st.
Proof.
  intros H. unfold mbind, M_bind.
  destruct (m st) as [[v|e] st1] eqn:E; [|reflexivity].
  now rewrite (H v st1 eq_refl).
Qed.

(** C10: [uti_data_file_plot] and [uti_plot_data_file] are the same
    function: on equal arguments and from equal states they end in the
    same result and the same state, the backend having received the same
    eleven arguments under the method name [uti_plot_data_file]. *)
Theorem uti_data_file_plot_is_uti_plot_data_file
    (_fname _read_labels _e _x _y _graphs_joined _multicolumn_data
     _column_x _column_y _scale _width_pixels : value) st :
  uti_data_file_plot _fname _read_labels _e _x _y _graphs_joined
    _multicolumn_data _column_x _column_y _scale _width_pixels st
  = uti_plot_data_file _fname _read_labels _e _x _y _graphs_joined
    _multicolumn_data _column_x _column_y _scale _width_pixels st
  /\ uti_plot_data_file _fname _read_labels _e _x _y _graphs_joined
    _multicolumn_data _column_x _column_y _scale _width_pixels st
  = delegate "uti_plot_data_file"
      [_fname; _read_labels; _e; _x; _y; _graphs_joined;
       _multicolumn_data; _column_x; _column_y; _scale; _width_pixels] st.
Proof.
  split; [|reflexivity].
  unfold uti_data_file_plot. apply then_None_idem.
  intros v st'. unfold uti_plot_data_file. apply delegate_returns_None.
Qed.

(** *** [uti_plot1d] *)

Lemma uti_plot1d_with_units ar1d x_range labels units st
    n u0 u1 l0 l1 t x_range' x_unit :
  units <> VNone ->
  py_getitem units 0 = Return u0 ->
  rescale_dim x_range u0 = Return (x_range', VStr x_unit) ->
  py_getitem units 1 = Return (VStr u1) ->
  py_len labels = Return n ->
  (if (n <? 3)%nat then t = VStr "" else py_getitem labels 2 = Return t) ->
  py_getitem labels 0 = Return (VStr l0) ->
  py_getitem labels 1 = Return (VStr l1) ->
  uti_plot1d ar1d x_range labels units st =
    delegate "uti_plot1d"
      [ar1d; x_range';
       VTuple [VStr (((l0 +:+ " [") +:+ x_unit) +:+ "]");
               VStr (((l1 +:+ " [") +:+ u1) +:+ "]"); t]] st.
Proof.
  intros Hu U0 R U1 Hn Ht L0 L1. apply is_None_false in Hu.
  unfold uti_plot1d. erewrite bind_lift_Return; cycle 1.
  { rewrite Hu, U0. simpl. rewrite R. simpl. rewrite U1. simpl.
    erewrite decorate_labels_str;
      [reflexivity|exact Hn|exact Ht|exact L0|exact L1|reflexivity..]. }
  reflexivity.
Qed.

(** C5: with units, [uti_plot1d] hands the backend the range returned by
    [rescale_dim(x_range, units[0])] and the label tuple
    [(labels[0] + ' [' + x_unit + ']', labels[1] + ' [' + units[1] + ']', t)],
    [x_unit] being the unit [rescale_dim] returned and [t] being
    [labels[2]] when there are three labels and [''] otherwise.  With an
    identity [rescale_dim],
    [uti_plot1d(data, (0,10,5), ('E','I'), units=('eV','ph'))] delegates
    the labels [('E [eV]', 'I [ph]', '')]. *)
Theorem uti_plot1d_units_labels :
  (forall ar1d x_range labels units st n u0 u1 l0 l1 t x_range' x_unit,
     units <> VNone ->
     py_getitem units 0 = Return u0 ->
     rescale_dim x_range u0 = Return (x_range', VStr x_unit) ->
     py_getitem units 1 = Return (VStr u1) ->
     py_len labels = Return n ->
     (if (n <? 3)%nat then t = VStr "" else py_getitem labels 2 = Return t) ->
     py_getitem labels 0 = Return (VStr l0) ->
     py_getitem labels 1 = Return (VStr l1) ->
     uti_plot1d ar1d x_range labels units st =
       delegate "uti_plot1d"
         [ar1d; x_range';
          VTuple [VStr (((l0 +:+ " [") +:+ x_unit) +:+ "]");
                  VStr (((l1 +:+ " [") +:+ u1) +:+ "]"); t]] st)
  /\ ((forall range unit, rescale_dim range unit = Return (range, unit)) ->
      forall data st,
        let x_range := VTuple [VNum (NInt 0); VNum (NInt 10); VNum (NInt 5)] in
        uti_plot1d data x_range (VTuple [VStr "E"; VStr "I"])
          (VTuple [VStr "eV"; VStr "ph"]) st =
        delegate "uti_plot1d"
          [data; x_range; VTuple [VStr "E [eV]"; VStr "I [ph]"; VStr ""]] st).
Proof.
  split.
  - intros. eapply uti_plot1d_with_units; eassumption.
  - intros Hid data st x_range.
    apply (uti_plot1d_with_units data x_range _ _ st 2%nat
             (VStr "eV") "ph" "E" "I" (VStr "") x_range "eV");
      [discriminate|reflexivity|apply Hid|reflexivity..].
Qed.

(** *** [uti_plot1d_ir] *)

Lemma check_container_list xs : check_container (VList xs) = Return tt.
Proof. reflexivity. Qed.

Lemma check_container_not_list ary :
  isinstance ary list_t = false ->
  check_container ary = Raise (NameError "array").
Proof.
  intros E. unfold check_container.
  change (isinstance_of ary "list" list_t) with (Return (isinstance ary list_t)).
  now rewrite E.
Qed.

Lemma list_setitem_middle (done : list value) old new rest :
  list_setitem (done ++ old :: rest) (length done) new =
    Return (done ++ new :: rest).
Proof.
  unfold list_setitem.
  assert ((length done <? length (done ++ old :: rest))%nat = true) as ->.
  { apply Nat.ltb_lt. rewrite length_app. simpl. lia. }
  rewrite insert_app_r_alt by lia. now rewrite Nat.sub_diag.
Qed.

(** The loop invariant: before the iteration for index [k], the first [k]
    slots of both lists hold the components of the first [k] pairs and
    the other slots still hold the initial value. *)
Lemma split_pairs_from m : forall k ps pts z,
  Forall2 is_pair ps pts ->
  length ps = (k + m)%nat ->
  split_pairs (VList ps) (seq k m)
    (take k pts.*1 ++ replicate m z) (take k pts.*2 ++ replicate m z)
  = Return (pts.*1, pts.*2).
Proof.
  induction m as [|m IH]; intros k ps pts z HF Hlen.
  - simpl. rewrite !app_nil_r.
    pose proof (Forall2_length _ _ _ HF) as Hl.
    rewrite !take_ge by (rewrite length_fmap; lia). reflexivity.
  - pose proof (Forall2_length _ _ _ HF) as Hl.
    destruct (lookup_lt_is_Some_2 ps k) as [p Hp]; [lia|].
    destruct (Forall2_lookup_l _ _ _ _ _ HF Hp) as ([x y] & Hxy & Hx & Hy).
    simpl in Hx, Hy.
    assert (length (take k pts.*1) = k) as L1
      by (rewrite length_take, length_fmap; lia).
    assert (length (take k pts.*2) = k) as L2
      by (rewrite length_take, length_fmap; lia).
    cbn [seq split_pairs py_getitem]. rewrite Hp. cbn [mbind result_bind].
    rewrite Hx. cbn [mbind result_bind].
    cbn [replicate].
    rewrite <- L1 at 2. rewrite list_setitem_middle. cbn [mbind result_bind].
    rewrite Hy. cbn [mbind result_bind].
    rewrite <- L2 at 2. rewrite list_setitem_middle. cbn [mbind result_bind].
    rewrite (cons_middle x), (cons_middle y), !app_assoc.
    rewrite <- (take_S_r pts.*1 k x) by (rewrite list_lookup_fmap, Hxy; reflexivity).
    rewrite <- (take_S_r pts.*2 k y) by (rewrite list_lookup_fmap, Hxy; reflexivity).
    apply IH; [exact HF|lia].
Qed.

Lemma uti_plot1d_ir_pairs ps pts labels st :
  Forall2 is_pair ps pts ->
  uti_plot1d_ir (VList ps) VNone labels VNone st =
    delegate "uti_plot1d_ir" [VList pts.*2; VList pts.*1; labels] st.
Proof.
  intros HF. unfold uti_plot1d_ir.
  erewrite bind_lift_Return by reflexivity.
  erewrite bind_lift_Return; cycle 1.
  { cbn [is_None]. rewrite check_container_list.
    cbn [mbind result_bind py_len].
    pose proof (split_pairs_from (length ps) 0 ps pts (VNum (NInt 0)) HF eq_refl)
      as Loop.
    rewrite !take_0 in Loop. cbn [app] in Loop. rewrite Loop. reflexivity. }
  reflexivity.
Qed.

Lemma uti_plot1d_ir_not_list ary labels st :
  isinstance ary list_t = false ->
  uti_plot1d_ir ary VNone labels VNone st = (Raise (NameError "array"), st).
Proof.
  intros E. unfold uti_plot1d_ir.
  erewrite bind_lift_Return by reflexivity.
  apply bind_lift_Raise.
  cbn [is_None]. now rewrite check_container_not_list.
Qed.

(** C3, as the code runs the test of lines 114-115: a list passes; for
    every other argument, a tuple or an array included, evaluating the
    test stops at the name [array], which the module binds nowhere, so the
    call raises NameError before anything reaches the backend and the
    generic exception of line 115 is never raised. *)
Theorem uti_plot1d_ir_container_test :
  (forall xs, check_container (VList xs) = Return tt) /\
  load_global "array" = Raise (NameError "array") /\
  (forall ary labels st,
     isinstance ary list_t = false ->
     uti_plot1d_ir ary VNone labels VNone st = (Raise (NameError "array"), st)).
Proof.
  split; [|split].
  - intros xs. apply check_container_list.
  - reflexivity.
  - intros ary labels st E. now apply uti_plot1d_ir_not_list.
Qed.

(** C4, as the code runs: a list of pairs is split into the list of first
    components (the abscissa) and the list of second components (the
    ordinate), both as long as the input, and [[1,1],[2,4],[3,9]] gives
    abscissa [1,2,3] and ordinate [1,4,9]; the same pairs in a tuple raise
    NameError at the container test and nothing is delegated. *)
Theorem uti_plot1d_ir_splits_lists_only :
  (forall ps pts labels st,
     Forall2 is_pair ps pts ->
     uti_plot1d_ir (VList ps) VNone labels VNone st =
       delegate "uti_plot1d_ir" [VList pts.*2; VList pts.*1; labels] st
     /\ length pts.*1 = length ps /\ length pts.*2 = length ps) /\
  (forall labels st,
     let i n := VNum (NInt n) in
     uti_plot1d_ir (VList [VList [i 1; i 1]; VList [i 2; i 4]; VList [i 3; i 9]])
       VNone labels VNone st =
       delegate "uti_plot1d_ir"
         [VList [i 1; i 4; i 9]; VList [i 1; i 2; i 3]; labels] st) /\
  (forall labels st,
     let i n := VNum (NInt n) in
     uti_plot1d_ir (VTuple [VTuple [i 1; i 1]; VTuple [i 2; i 4]; VTuple [i 3; i 9]])
       VNone labels VNone st = (Raise (NameError "array"), st)).
Proof.
  split; [|split].
  - intros ps pts labels st HF. split; [now apply uti_plot1d_ir_pairs|].
    apply Forall2_length in HF. rewrite !length_fmap. lia.
  - intros labels st i.
    apply (uti_plot1d_ir_pairs _ [(i 1, i 1); (i 2, i 4); (i 3, i 9)]).
    repeat constructor.
  - intros labels st i. now apply uti_plot1d_ir_not_list.
Qed.

(** *** [uti_plot2d] *)

Lemma uti_plot2d_unchanged ar2d x_range y_range labels units st :
  units = VNone \/ x_range = VNone \/ y_range = VNone ->
  uti_plot2d ar2d x_range y_range labels units st =
    delegate "uti_plot2d" [ar2d; x_range; y_range; labels] st.
Proof.
  intros H. unfold uti_plot2d.
  erewrite bind_lift_Return; cycle 1.
  { assert (negb (is_None units) && negb (is_None x_range)
            && negb (is_None y_range) = false) as ->; [|reflexivity].
    destruct H as [-> | [-> | ->]]; simpl;
      rewrite ?andb_false_r; reflexivity. }
  reflexivity.
Qed.

Lemma uti_plot2d_with_units ar2d x_range y_range labels units st
    n u0 u1 u2 l0 l1 t x_range' x_unit y_range' y_unit :
  units <> VNone -> x_range <> VNone -> y_range <> VNone ->
  py_getitem units 0 = Return u0 ->
  rescale_dim x_range u0 = Return (x_range', VStr x_unit) ->
  py_getitem units 1 = Return u1 ->
  rescale_dim y_range u1 = Return (y_range', VStr y_unit) ->
  py_getitem units 2 = Return u2 ->
  py_len labels = Return n ->
  (if (n <? 3)%nat then t = VStr "" else py_getitem labels 2 = Return t) ->
  py_getitem labels 0 = Return (VStr l0) ->
  py_getitem labels 1 = Return (VStr l1) ->
  uti_plot2d ar2d x_range y_range labels units st =
    delegate "uti_plot2d"
      [ar2d; x_range'; y_range';
       VTuple [VStr (((l0 +:+ " [") +:+ x_unit) +:+ "]");
               VStr (((l1 +:+ " [") +:+ y_unit) +:+ "]"); t]] st.
Proof.
  intros Hu Hx Hy U0 RX U1 RY U2 Hn Ht L0 L1.
  apply is_None_false in Hu, Hx, Hy.
  unfold uti_plot2d. erewrite bind_lift_Return; cycle 1.
  { rewrite Hu, Hx, Hy, U0. simpl. rewrite RX. simpl. rewrite U1. simpl.
    rewrite RY. simpl. rewrite U2. simpl.
    erewrite decorate_labels_str;
      [reflexivity|exact Hn|exact Ht|exact L0|exact L1|reflexivity..]. }
  reflexivity.
Qed.

(** C6: [uti_plot2d] rescales the ranges and decorates the labels exactly
    when [units], [x_range] and [y_range] are all given.  If any of the
    three is [None], the ranges and the labels reach the backend as they
    were passed, whatever [rescale_dim] would do; if all three are given,
    the backend receives the two ranges returned by [rescale_dim] and the
    labels decorated with the units it returned. *)
Theorem uti_plot2d_rescales_iff_units_and_both_ranges :
  (forall ar2d x_range y_range labels units st,
     units = VNone \/ x_range = VNone \/ y_range = VNone ->
     uti_plot2d ar2d x_range y_range labels units st =
       delegate "uti_plot2d" [ar2d; x_range; y_range; labels] st) /\
  (forall ar2d x_range y_range labels units st
          n u0 u1 u2 l0 l1 t x_range' x_unit y_range' y_unit,
     units <> VNone -> x_range <> VNone -> y_range <> VNone ->
     py_getitem units 0 = Return u0 ->
     rescale_dim x_range u0 = Return (x_range', VStr x_unit) ->
     py_getitem units 1 = Return u1 ->
     rescale_dim y_range u1 = Return (y_range', VStr y_unit) ->
     py_getitem units 2 = Return u2 ->
     py_len labels = Return n ->
     (if (n <? 3)%nat then t = VStr "" else py_getitem labels 2 = Return t) ->
     py_getitem labels 0 = Return (VStr l0) ->
     py_getitem labels 1 = Return (VStr l1) ->
     uti_plot2d ar2d x_range y_range labels units st =
       delegate "uti_plot2d"
         [ar2d; x_range'; y_range';
          VTuple [VStr (((l0 +:+ " [") +:+ x_unit) +:+ "]");
                  VStr (((l1 +:+ " [") +:+ y_unit) +:+ "]"); t]] st).
Proof.
  split.
  - intros. now apply uti_plot2d_unchanged.
  - intros. eapply uti_plot2d_with_units; eassumption.
Qed.

(** *** [uti_plot2d1d] *)

Lemma scale_cut_zero x x_range xRangeOrig :
  num_ne0 x = false -> scale_cut x x_range xRangeOrig = Return x.
Proof. intros E. unfold scale_cut. now rewrite E. Qed.

Lemma scale_cut_nonzero x x_range xRangeOrig d q x' :
  num_ne0 x = true ->
  extent x_range = Return d ->
  num_truediv d xRangeOrig = Return q ->
  num_mul x q = Return x' ->
  scale_cut x x_range xRangeOrig = Return x'.
Proof.
  intros E D Q X. unfold scale_cut. rewrite E, D. simpl. rewrite Q. simpl.
  exact X.
Qed.

(** The relation between a cut coordinate and what lines 198-199 make of
    it, written without [scale_cut]. *)
Lemma scale_cut_spec x x_range xRangeOrig x' :
  (if num_ne0 x
   then exists d q, extent x_range = Return d /\
                    num_truediv d xRangeOrig = Return q /\
                    num_mul x q = Return x'
   else x' = x) ->
  scale_cut x x_range xRangeOrig = Return x'.
Proof.
  destruct (num_ne0 x) eqn:E.
  - intros (d & q & D & Q & X). now apply (scale_cut_nonzero _ _ _ d q).
  - intros ->. now apply scale_cut_zero.
Qed.

Lemma cut_title_units_str labels i y units l u :
  py_getitem labels i = Return (VStr l) ->
  py_getitem units i = Return (VStr u) ->
  cut_title_units labels i y units =
    Return (if num_ne0 y
            then ((("At " +:+ l) +:+ ": ") +:+ num_str (num_round6 y)) +:+ (" " +:+ u)
            else (("At " +:+ l) +:+ ": ") +:+ num_str (num_round6 y)).
Proof.
  intros L U. unfold cut_title_units. rewrite L. simpl.
  destruct (num_ne0 y); [|reflexivity]. now rewrite U.
Qed.

Lemma cut_title_str labels i y l :
  py_getitem labels i = Return (VStr l) ->
  cut_title labels i y = Return ((("At " +:+ l) +:+ ": ") +:+ num_str y).
Proof. intros L. unfold cut_title. now rewrite L. Qed.

Lemma uti_plot2d1d_with_units ar2d x_range y_range x y labels units graphs_joined st
    xRangeOrig yRangeOrig u0 u1 u2 x_range' y_range' x_unit y_unit l0 l1 l2 x' y' :
  units <> VNone ->
  extent x_range = Return xRangeOrig ->
  extent y_range = Return yRangeOrig ->
  py_getitem units 0 = Return u0 ->
  rescale_dim x_range u0 = Return (x_range', VStr x_unit) ->
  py_getitem units 1 = Return u1 ->
  rescale_dim y_range u1 = Return (y_range', VStr y_unit) ->
  scale_cut x x_range' xRangeOrig = Return x' ->
  scale_cut y y_range' yRangeOrig = Return y' ->
  py_getitem units 2 = Return (VStr u2) ->
  py_getitem labels 0 = Return (VStr l0) ->
  py_getitem labels 1 = Return (VStr l1) ->
  py_getitem labels 2 = Return (VStr l2) ->
  uti_plot2d1d ar2d x_range y_range x y labels units graphs_joined st =
    delegate "uti_plot2d1d"
      [ar2d; x_range'; y_range'; VNum x'; VNum y';
       VList
         [VTuple [VStr (((l0 +:+ " [") +:+ x_unit) +:+ "]");
                  VStr (((l1 +:+ " [") +:+ y_unit) +:+ "]");
                  VStr l2];
          VTuple [VStr (((l0 +:+ " [") +:+ x_unit) +:+ "]");
                  VStr (((l2 +:+ " [") +:+ u2) +:+ "]");
                  VStr (if num_ne0 y'
                        then ((("At " +:+ l1) +:+ ": ") +:+ num_str (num_round6 y'))
                             +:+ (" " +:+ y_unit)
                        else (("At " +:+ l1) +:+ ": ") +:+ num_str (num_round6 y'))];
          VTuple [VStr (((l1 +:+ " [") +:+ y_unit) +:+ "]");
                  VStr (((l2 +:+ " [") +:+ u2) +:+ "]");
                  VStr (if num_ne0 x'
                        then ((("At " +:+ l0) +:+ ": ") +:+ num_str (num_round6 x'))
                             +:+ (" " +:+ x_unit)
                        else (("At " +:+ l0) +:+ ": ") +:+ num_str (num_round6 x'))]];
       graphs_joined] st.
Proof.
  intros Hu XO YO U0 RX U1 RY SX SY U2 L0 L1 L2.
  apply is_None_false in Hu.
  unfold uti_plot2d1d. erewrite bind_lift_Return; cycle 1.
  { rewrite Hu, XO. simpl. rewrite YO. simpl. rewrite U0. simpl.
    rewrite RX. simpl. rewrite U1. simpl. rewrite RY. simpl.
    rewrite SX. simpl. rewrite SY. simpl. rewrite U2. simpl.
    rewrite L2. simpl.
    set (units' := VList [VStr x_unit; VStr y_unit; VStr u2]).
    rewrite !(with_unit_str labels units' 0 l0 x_unit L0 eq_refl).
    rewrite !(with_unit_str labels units' 1 l1 y_unit L1 eq_refl).
    rewrite !(with_unit_str labels units' 2 l2 u2 L2 eq_refl).
    rewrite (cut_title_units_str labels 1 y' units' l1 y_unit L1 eq_refl).
    rewrite (cut_title_units_str labels 0 x' units' l0 x_unit L0 eq_refl).
    reflexivity. }
  reflexivity.
Qed.

Lemma uti_plot2d1d_without_units ar2d x_range y_range x y labels graphs_joined st
    l0 l1 l2 :
  py_getitem labels 0 = Return (VStr l0) ->
  py_getitem labels 1 = Return (VStr l1) ->
  py_getitem labels 2 = Return (VStr l2) ->
  uti_plot2d1d ar2d x_range y_range x y labels VNone graphs_joined st =
    delegate "uti_plot2d1d"
      [ar2d; x_range; y_range; VNum x; VNum y;
       VList
         [VTuple [VStr l0; VStr l1; VStr l2];
          VTuple [VStr l0; VStr l2;
                  VStr ((("At " +:+ l1) +:+ ": ") +:+ num_str y)];
          VTuple [VStr l1; VStr l2;
                  VStr ((("At " +:+ l0) +:+ ": ") +:+ num_str x)]];
       graphs_joined] st.
Proof.
  intros L0 L1 L2.
  unfold uti_plot2d1d. erewrite bind_lift_Return; cycle 1.
  { cbn [is_None negb]. rewrite L2. cbn [mbind result_bind].
    rewrite L0. cbn [mbind result_bind]. rewrite L1. cbn [mbind result_bind].
    rewrite (cut_title_str labels 1 y l1 L1), (cut_title_str labels 0 x l0 L0).
    reflexivity. }
  reflexivity.
Qed.

(** C7: with units, once both ranges are rescaled, a cut coordinate that
    is not zero reaches the backend multiplied by the extent
    [range[1] - range[0]] of its rescaled range divided by the extent of
    the range as passed, and a cut coordinate that is zero reaches the
    backend as passed. *)
Theorem uti_plot2d1d_scales_nonzero_cuts
    ar2d x_range y_range x y labels units graphs_joined st
    xRangeOrig yRangeOrig u0 u1 u2 x_range' y_range' x_unit y_unit l0 l1 l2 x' y' :
  units <> VNone ->
  extent x_range = Return xRangeOrig ->
  extent y_range = Return yRangeOrig ->
  py_getitem units 0 = Return u0 ->
  rescale_dim x_range u0 = Return (x_range', VStr x_unit) ->
  py_getitem units 1 = Return u1 ->
  rescale_dim y_range u1 = Return (y_range', VStr y_unit) ->
  py_getitem units 2 = Return (VStr u2) ->
  py_getitem labels 0 = Return (VStr l0) ->
  py_getitem labels 1 = Return (VStr l1) ->
  py_getitem labels 2 = Return (VStr l2) ->
  (if num_ne0 x
   then exists d q, extent x_range' = Return d /\
                    num_truediv d xRangeOrig = Return q /\
                    num_mul x q = Return x'
   else x' = x) ->
  (if num_ne0 y
   then exists d q, extent y_range' = Return d /\
                    num_truediv d yRangeOrig = Return q /\
                    num_mul y q = Return y'
   else y' = y) ->
  exists labels',
    uti_plot2d1d ar2d x_range y_range x y labels units graphs_joined st =
      delegate "uti_plot2d1d"
        [ar2d; x_range'; y_range'; VNum x'; VNum y'; labels'; graphs_joined] st.
Proof.
  intros Hu XO YO U0 RX U1 RY U2 L0 L1 L2 SX SY.
  apply scale_cut_spec in SX, SY.
  eexists.
  eapply uti_plot2d1d_with_units; eassumption.
Qed.

(** C8: with units, the title of the X cut is
    ['At ' + labels[1] + ': ' + str(round(y, 6))], followed by [' '] and
    the y unit exactly when [y] is not zero, and the title of the Y cut is
    the same with [labels[0]], [x] and the x unit ([x], [y] and the units
    being the values of these names on lines 207-215: the scaled cuts and
    the units [rescale_dim] returned).  Without units, the titles are
    ['At ' + labels[1] + ': ' + str(y)] and
    ['At ' + labels[0] + ': ' + str(x)].  For the cuts [x = 0] and [y = 0],
    both branches give ['At ' + labels[1] + ': 0'] and
    ['At ' + labels[0] + ': 0'], without a unit. *)
Theorem uti_plot2d1d_cut_titles :
  (forall ar2d x_range y_range x y labels units graphs_joined st
          xRangeOrig yRangeOrig u0 u1 u2 x_range' y_range' x_unit y_unit
          l0 l1 l2 x' y',
     units <> VNone ->
     extent x_range = Return xRangeOrig ->
     extent y_range = Return yRangeOrig ->
     py_getitem units 0 = Return u0 ->
     rescale_dim x_range u0 = Return (x_range', VStr x_unit) ->
     py_getitem units 1 = Return u1 ->
     rescale_dim y_range u1 = Return (y_range', VStr y_unit) ->
     scale_cut x x_range' xRangeOrig = Return x' ->
     scale_cut y y_range' yRangeOrig = Return y' ->
     py_getitem units 2 = Return (VStr u2) ->
     py_getitem labels 0 = Return (VStr l0) ->
     py_getitem labels 1 = Return (VStr l1) ->
     py_getitem labels 2 = Return (VStr l2) ->
     let bracketed l u := VStr (((l +:+ " [") +:+ u) +:+ "]") in
     let title l c u :=
       let at_c := (("At " +:+ l) +:+ ": ") +:+ num_str (num_round6 c) in
       VStr (if num_ne0 c then at_c +:+ (" " +:+ u) else at_c) in
     uti_plot2d1d ar2d x_range y_range x y labels units graphs_joined st =
       delegate "uti_plot2d1d"
         [ar2d; x_range'; y_range'; VNum x'; VNum y';
          VList
            [VTuple [bracketed l0 x_unit; bracketed l1 y_unit; VStr l2];
             VTuple [bracketed l0 x_unit; bracketed l2 u2; title l1 y' y_unit];
             VTuple [bracketed l1 y_unit; bracketed l2 u2; title l0 x' x_unit]];
          graphs_joined] st) /\
  (forall ar2d x_range y_range x y labels graphs_joined st l0 l1 l2,
     py_getitem labels 0 = Return (VStr l0) ->
     py_getitem labels 1 = Return (VStr l1) ->
     py_getitem labels 2 = Return (VStr l2) ->
     let title l c := VStr ((("At " +:+ l) +:+ ": ") +:+ num_str c) in
     uti_plot2d1d ar2d x_range y_range x y labels VNone graphs_joined st =
       delegate "uti_plot2d1d"
         [ar2d; x_range; y_range; VNum x; VNum y;
          VList
            [VTuple [VStr l0; VStr l1; VStr l2];
             VTuple [VStr l0; VStr l2; title l1 y];
             VTuple [VStr l1; VStr l2; title l0 x]];
          graphs_joined] st) /\
  (forall ar2d x_range y_range labels units graphs_joined st
          xRangeOrig yRangeOrig u0 u1 u2 x_range' y_range' x_unit y_unit
          l0 l1 l2,
     units <> VNone ->
     extent x_range = Return xRangeOrig ->
     extent y_range = Return yRangeOrig ->
     py_getitem units 0 = Return u0 ->
     rescale_dim x_range u0 = Return (x_range', VStr x_unit) ->
     py_getitem units 1 = Return u1 ->
     rescale_dim y_range u1 = Return (y_range', VStr y_unit) ->
     py_getitem units 2 = Return (VStr u2) ->
     py_getitem labels 0 = Return (VStr l0) ->
     py_getitem labels 1 = Return (VStr l1) ->
     py_getitem labels 2 = Return (VStr l2) ->
     let bracketed l u := VStr (((l +:+ " [") +:+ u) +:+ "]") in
     let zero := NInt 0 in
     let title l := VStr ((("At " +:+ l) +:+ ": ") +:+ "0") in
     uti_plot2d1d ar2d x_range y_range zero zero labels units graphs_joined st =
       delegate "uti_plot2d1d"
         [ar2d; x_range'; y_range'; VNum zero; VNum zero;
          VList
            [VTuple [bracketed l0 x_unit; bracketed l1 y_unit; VStr l2];
             VTuple [bracketed l0 x_unit; bracketed l2 u2; title l1];
             VTuple [bracketed l1 y_unit; bracketed l2 u2; title l0]];
          graphs_joined] st /\
     uti_plot2d1d ar2d x_range y_range zero zero labels VNone graphs_joined st =
       delegate "uti_plot2d1d"
         [ar2d; x_range; y_range; VNum zero; VNum zero;
          VList
            [VTuple [VStr l0; VStr l1; VStr l2];
             VTuple [VStr l0; VStr l2; title l1];
             VTuple [VStr l1; VStr l2; title l0]];
          graphs_joined] st).
Proof.
  split; [|split].
  - intros. cbv zeta. eapply uti_plot2d1d_with_units; eassumption.
  - intros. cbv zeta. now apply uti_plot2d1d_without_units.
  - intros ar2d x_range y_range labels units graphs_joined st
      xRangeOrig yRangeOrig u0 u1 u2 x_range' y_range' x_unit y_unit l0 l1 l2
      Hu XO YO U0 RX U1 RY U2 L0 L1 L2. cbv zeta. split.
    + rewrite (uti_plot2d1d_with_units ar2d x_range y_range (NInt 0) (NInt 0)
                 labels units graphs_joined st xRangeOrig yRangeOrig u0 u1 u2
                 x_range' y_range' x_unit y_unit l0 l1 l2 (NInt 0) (NInt 0));
        try assumption; reflexivity.
    + rewrite (uti_plot2d1d_without_units ar2d x_range y_range (NInt 0) (NInt 0)
                 labels graphs_joined st l0 l1 l2); try assumption; reflexivity.
Qed.

End Properties.

(** * Further properties of the module *)

Section Lifecycle.
Context {FL : PyFloat} {CO : Collaborators}.
Local Open Scope list_scope.

(** ** The final call of a facade function, handle by handle *)

Lemma recursion_limit_S : recursion_limit = S (pred recursion_limit).
Proof. reflexivity. Qed.

Lemma delegate_on_backend name args st b f :
  _backend st = Backend b f ->
  delegate name args st =
    (match Backend_method (log st) name args [] with
     | Return _ => Return VNone
     | Raise e => Raise e
     end,
     mkState (Backend b f) (log st ++ [EvCall name args []])).
Proof.
  intros E. unfold delegate, mbind, M_bind.
  rewrite (call_backend_real _ _ _ _ _ _ b f E), E.
  now destruct (Backend_method _ _ _ _).
Qed.

Lemma delegate_on_none name args st :
  _backend st = _BackendNone ->
  delegate name args st = (Return VNone, st).
Proof.
  intros E. unfold delegate. erewrite bind_Return; [reflexivity|].
  now apply call_backend_none.
Qed.

Lemma delegate_on_missing name args st :
  _backend st = _BackendMissing ->
  delegate name args st =
    if Backend_constructs (log st) DEFAULT_BACKEND None
    then (match Backend_method (log st ++ [default_init]) name args [] with
          | Return _ => Return VNone
          | Raise e => Raise e
          end,
          mkState (Backend DEFAULT_BACKEND None)
            (log st ++ [default_init; EvCall name args []]))
    else (Return VNone,
          mkState _BackendNone
            (log st ++ [default_init; EvPrintExc;
                        EvPrint (unable_notice DEFAULT_BACKEND)])).
Proof.
  intros E. unfold delegate. rewrite recursion_limit_S.
  unfold mbind at 1, M_bind at 1.
  rewrite call_backend_missing by exact E.
  destruct (Backend_constructs (log st) DEFAULT_BACKEND None) eqn:C.
  - erewrite bind_Return by (apply uti_plot_init_constructs; exact C).
    erewrite call_backend_real by reflexivity. simpl.
    rewrite <- app_assoc. now destruct (Backend_method _ _ _ _).
  - erewrite bind_Return by (apply uti_plot_init_falls_back; exact C).
    now rewrite call_backend_none.
Qed.

(** X1: the handle never goes back to the uninitialised proxy.  A
    [uti_plot_init] that returns leaves a backend installed, the final
    call of a facade function always leaves one installed, and when one
    was installed before that call it is still the same one after it. *)
Theorem handle_never_reverts :
  (forall backend fname_format st v st',
     uti_plot_init backend fname_format st = (Return v, st') ->
     _backend st' <> _BackendMissing) /\
  (forall name args st,
     _backend (delegate name args st).2 <> _BackendMissing /\
     (_backend st <> _BackendMissing ->
      _backend (delegate name args st).2 = _backend st)).
Proof.
  split.
  - intros backend fname_format st v st' Run.
    destruct (uti_plot_init_installs _ _ _ _ _ Run) as [(w & _ & H) | (e & He & _)];
      [exact H | discriminate].
  - intros name args st. destruct (_backend st) as [| |b f] eqn:E.
    + rewrite delegate_on_missing by exact E.
      destruct (Backend_constructs _ _ _); simpl; split; congruence.
    + rewrite delegate_on_none by exact E. simpl. rewrite E. split; congruence.
    + rewrite (delegate_on_backend _ _ _ b f E). simpl. split; congruence.
Qed.

(** X2: the final call of a facade function only appends to the log of
    effects, and what it appends holds one attempt to construct the
    plotting backend when the handle was the uninitialised proxy and none
    otherwise: initialisation is lazy, happens once, and is not retried
    after a fall-back to the none-backend. *)
Theorem facade_call_appends_to_log name args st :
  exists delta,
    log (delegate name args st).2 = log st ++ delta /\
    constructions delta =
      match _backend st with
      | _BackendMissing => 1%nat
      | _ => 0%nat
      end.
Proof.
  destruct (_backend st) as [| |b f] eqn:E.
  - rewrite delegate_on_missing by exact E.
    destruct (Backend_constructs _ _ _); simpl; eexists; split; reflexivity.
  - rewrite delegate_on_none by exact E. exists []. now rewrite app_nil_r.
  - rewrite (delegate_on_backend _ _ _ b f E). simpl. eexists; split; reflexivity.
Qed.

(** X3: after [uti_plot_init(None)], whatever backend was installed
    before, the final call of every facade function returns [None] and
    adds nothing to the log: no plotting occurs. *)
Theorem explicit_none_silences_plotting name args st :
  (uti_plot_init None None;; delegate name args) st =
    (Return VNone, mkState _BackendNone (log st)) /\
  (uti_plot_init None None;; uti_plot_show) st =
    (Return VNone, mkState _BackendNone (log st)).
Proof.
  split.
  - erewrite bind_Return by reflexivity. now apply delegate_on_none.
  - erewrite bind_Return by reflexivity. now apply delegate_on_none.
Qed.

(** X4: the last initialisation wins.  When the plotting backend
    constructs, [uti_plot_init(backend, fname_format)] followed by the
    final call of a facade function enters the method of that name on the
    new backend, whatever handle was installed before; the value the
    method returns is discarded, an exception it raises reaches the
    caller, and the call is on the log in both cases. *)
Theorem explicit_init_then_call b f name args st :
  Backend_constructs (log st) b f = true ->
  (uti_plot_init (Some b) f;; delegate name args) st =
    (match Backend_method (log st ++ [EvBackend b f]) name args [] with
     | Return _ => Return VNone
     | Raise e => Raise e
     end,
     mkState (Backend b f) (log st ++ [EvBackend b f; EvCall name args []])).
Proof.
  intros C.
  erewrite bind_Return by (apply uti_plot_init_constructs; exact C).
  erewrite delegate_on_backend by reflexivity. simpl.
  now rewrite <- app_assoc.
Qed.

(** X5: lazy initialisation is explicit default initialisation.  On the
    uninitialised proxy, the final call of a facade function ends in the
    same result and the same state as [uti_plot_init()] followed by that
    call. *)
Theorem lazy_init_is_default_init name args st :
  _backend st = _BackendMissing ->
  delegate name args st =
    (uti_plot_init (Some DEFAULT_BACKEND) None;; delegate name args) st.
Proof.
  intros E. rewrite delegate_on_missing by exact E.
  destruct (Backend_constructs (log st) DEFAULT_BACKEND None) eqn:C.
  - erewrite bind_Return by (apply uti_plot_init_constructs; exact C).
    erewrite delegate_on_backend by reflexivity. simpl.
    now rewrite <- app_assoc.
  - erewrite bind_Return by (apply uti_plot_init_falls_back; exact C).
    now rewrite delegate_on_none.
Qed.

End Lifecycle.

Section Facade.
Context {FL : PyFloat} {CO : Collaborators}.
Local Open Scope list_scope.

(** ** Arguments are prepared before the backend is touched *)

Lemma bind_lift_cases {A B} (r : result A) (k : A -> M B) st :
  (exists e, r = Raise e /\ (lift r ≫= k) st = (Raise e, st)) \/
  (exists a, r = Return a /\ (lift r ≫= k) st = k a st).
Proof. destruct r as [a|e]; [right|left]; eexists; split; reflexivity. Qed.

Lemma uti_plot1d_shape ar1d x_range labels units st :
  (exists e, uti_plot1d ar1d x_range labels units st = (Raise e, st)) \/
  (exists x_range' labels',
     uti_plot1d ar1d x_range labels units st =
       delegate "uti_plot1d" [ar1d; x_range'; labels'] st).
Proof.
  unfold uti_plot1d.
  match goal with |- context [(lift ?r ≫= ?k) st] =>
    destruct (bind_lift_cases r k st) as [(e & _ & ->) | ([a b] & _ & ->)] end;
    [left|right]; eauto.
Qed.

Lemma uti_plot1d_ir_shape ary arx labels units st :
  (exists e, uti_plot1d_ir ary arx labels units st = (Raise e, st)) \/
  (exists ary' arx' labels',
     uti_plot1d_ir ary arx labels units st =
       delegate "uti_plot1d_ir" [ary'; arx'; labels'] st).
Proof.
  unfold uti_plot1d_ir.
  match goal with |- context [(lift ?r ≫= ?k) st] =>
    destruct (bind_lift_cases r k st) as [(e & _ & ->) | (l & _ & ->)] end;
    [left; eauto|].
  match goal with |- context [(lift ?r ≫= ?k) st] =>
    destruct (bind_lift_cases r k st) as [(e & _ & ->) | ([a b] & _ & ->)] end;
    [left|right]; eauto.
Qed.

Lemma uti_plot1d_m_shape ars labels units styles legend st :
  (exists e, uti_plot1d_m ars labels units styles legend st = (Raise e, st)) \/
  (exists labels',
     uti_plot1d_m ars labels units styles legend st =
       delegate "uti_plot1d_m" [ars; labels'; styles; legend] st).
Proof.
  unfold uti_plot1d_m.
  match goal with |- context [(lift ?r ≫= ?k) st] =>
    destruct (bind_lift_cases r k st) as [(e & _ & ->) | (l & _ & ->)] end;
    [left|right]; eauto.
Qed.

Lemma uti_plot2d_shape ar2d x_range y_range labels units st :
  (exists e, uti_plot2d ar2d x_range y_range labels units st = (Raise e, st)) \/
  (exists x_range' y_range' labels',
     uti_plot2d ar2d x_range y_range labels units st =
       delegate "uti_plot2d" [ar2d; x_range'; y_range'; labels'] st).
Proof.
  unfold uti_plot2d.
  match goal with |- context [(lift ?r ≫= ?k) st] =>
    destruct (bind_lift_cases r k st) as [(e & _ & ->) | ([[a b] c] & _ & ->)] end;
    [left|right]; eauto.
Qed.

Lemma uti_plot2d1d_shape ar2d x_range y_range x y labels units graphs_joined st :
  (exists e,
     uti_plot2d1d ar2d x_range y_range x y labels units graphs_joined st =
       (Raise e, st)) \/
  (exists x_range' y_range' x' y' labels',
     uti_plot2d1d ar2d x_range y_range x y labels units graphs_joined st =
       delegate "uti_plot2d1d"
         [ar2d; x_range'; y_range'; VNum x'; VNum y'; labels'; graphs_joined] st).
Proof.
  unfold uti_plot2d1d.
  match goal with |- context [(lift ?r ≫= ?k) st] =>
    destruct (bind_lift_cases r k st)
      as [(e & _ & ->) | ([[[[[[a b] c] d] l2D] l1X] l1Y] & _ & ->)] end;
    [left; eauto|right].
  do 5 eexists. reflexivity.
Qed.

(** X6: a facade function that prepares its arguments either fails on
    them, and then the state is as it was (the uninitialised proxy is not
    initialised, nothing is on the log), or ends in one call of the
    backend method of its own name; in that call the data array, the
    styles, the legend and the joined-panel flag are the objects it was
    given. *)
Theorem facade_fails_early_or_delegates :
  (forall ar1d x_range labels units st,
     (exists e, uti_plot1d ar1d x_range labels units st = (Raise e, st)) \/
     (exists x_range' labels',
        uti_plot1d ar1d x_range labels units st =
          delegate "uti_plot1d" [ar1d; x_range'; labels'] st)) /\
  (forall ary arx labels units st,
     (exists e, uti_plot1d_ir ary arx labels units st = (Raise e, st)) \/
     (exists ary' arx' labels',
        uti_plot1d_ir ary arx labels units st =
          delegate "uti_plot1d_ir" [ary'; arx'; labels'] st)) /\
  (forall ars labels units styles legend st,
     (exists e, uti_plot1d_m ars labels units styles legend st = (Raise e, st)) \/
     (exists labels',
        uti_plot1d_m ars labels units styles legend st =
          delegate "uti_plot1d_m" [ars; labels'; styles; legend] st)) /\
  (forall ar2d x_range y_range labels units st,
     (exists e, uti_plot2d ar2d x_range y_range labels units st = (Raise e, st)) \/
     (exists x_range' y_range' labels',
        uti_plot2d ar2d x_range y_range labels units st =
          delegate "uti_plot2d" [ar2d; x_range'; y_range'; labels'] st)) /\
  (forall ar2d x_range y_range x y labels units graphs_joined st,
     (exists e,
        uti_plot2d1d ar2d x_range y_range x y labels units graphs_joined st =
          (Raise e, st)) \/
     (exists x_range' y_range' x' y' labels',
        uti_plot2d1d ar2d x_range y_range x y labels units graphs_joined st =
          delegate "uti_plot2d1d"
            [ar2d; x_range'; y_range'; VNum x'; VNum y'; labels'; graphs_joined]
            st)).
Proof.
  repeat split; intros.
  - apply uti_plot1d_shape.
  - apply uti_plot1d_ir_shape.
  - apply uti_plot1d_m_shape.
  - apply uti_plot2d_shape.
  - apply uti_plot2d1d_shape.
Qed.

Lemma shape_returns_None (run : result value * state) st :
  (exists e, run = (Raise e, st)) \/
  (exists name args, run = delegate name args st) ->
  forall v st', run = (Return v, st') -> v = VNone.
Proof.
  intros [(e & ->) | (name & args & ->)] v st' Run; [discriminate|].
  now apply delegate_returns_None in Run.
Qed.

(** X7: no function of the module returns a value: whenever
    [uti_plot_init] or a facade function returns, it returns [None],
    whatever the backend method returned. *)
Theorem module_functions_return_None v st st' :
  (forall backend fname_format,
     uti_plot_init backend fname_format st = (Return v, st') -> v = VNone) /\
  (uti_plot_show st = (Return v, st') -> v = VNone) /\
  (forall ar1d x_range labels units,
     uti_plot1d ar1d x_range labels units st = (Return v, st') -> v = VNone) /\
  (forall ary arx labels units,
     uti_plot1d_ir ary arx labels units st = (Return v, st') -> v = VNone) /\
  (forall ars labels units styles legend,
     uti_plot1d_m ars labels units styles legend st = (Return v, st') -> v = VNone) /\
  (forall ar2d x_range y_range labels units,
     uti_plot2d ar2d x_range y_range labels units st = (Return v, st') -> v = VNone) /\
  (forall ar2d x_range y_range x y labels units graphs_joined,
     uti_plot2d1d ar2d x_range y_range x y labels units graphs_joined st
       = (Return v, st') -> v = VNone) /\
  (forall a1 a2 a3 a4 a5 a6 a7 a8 a9 a10 a11,
     uti_plot_data_file a1 a2 a3 a4 a5 a6 a7 a8 a9 a10 a11 st = (Return v, st') ->
     v = VNone) /\
  (forall a1 a2 a3 a4 a5 a6 a7 a8 a9 a10 a11,
     uti_data_file_plot a1 a2 a3 a4 a5 a6 a7 a8 a9 a10 a11 st = (Return v, st') ->
     v = VNone).
Proof.
  repeat split.
  - intros [b|] f.
    + destruct (Backend_constructs (log st) b f) eqn:C.
      * rewrite uti_plot_init_constructs by exact C. congruence.
      * rewrite uti_plot_init_falls_back by exact C. congruence.
    + destruct f;
        unfold uti_plot_init, raise, mbind, M_bind, set_backend, mret, M_ret;
        simpl; congruence.
  - apply delegate_returns_None.
  - intros ar1d x_range labels units. apply shape_returns_None with (st := st).
    destruct (uti_plot1d_shape ar1d x_range labels units st)
      as [?|(? & ? & ?)]; eauto.
  - intros ary arx labels units. apply shape_returns_None with (st := st).
    destruct (uti_plot1d_ir_shape ary arx labels units st)
      as [?|(? & ? & ? & ?)]; eauto.
  - intros ars labels units styles legend.
    apply shape_returns_None with (st := st).
    destruct (uti_plot1d_m_shape ars labels units styles legend st)
      as [?|(? & ?)]; eauto.
  - intros ar2d x_range y_range labels units.
    apply shape_returns_None with (st := st).
    destruct (uti_plot2d_shape ar2d x_range y_range labels units st)
      as [?|(? & ? & ? & ?)]; eauto.
  - intros ar2d x_range y_range x y labels units graphs_joined.
    apply shape_returns_None with (st := st).
    destruct (uti_plot2d1d_shape ar2d x_range y_range x y labels units
                graphs_joined st) as [?|(? & ? & ? & ? & ? & ?)]; eauto.
  - intros. eapply delegate_returns_None. eassumption.
  - intros a1 a2 a3 a4 a5 a6 a7 a8 a9 a10 a11.
    unfold uti_data_file_plot, mbind, M_bind, mret, M_ret.
    destruct (uti_plot_data_file _ _ _ _ _ _ _ _ _ _ _ _) as [[w|e] st1];
      congruence.
Qed.

(** ** Sequences and indices *)

Lemma string_get_short s : forall i,
  (String.length s <= i)%nat -> String.get i s = None.
Proof.
  induction s as [|c s IH]; intros i Hi; [reflexivity|].
  destruct i as [|i]; simpl in *; [lia|]. apply IH. lia.
Qed.

Lemma py_getitem_short v n i :
  py_len v = Return n -> (n <= i)%nat -> py_getitem v i = Raise IndexError.
Proof.
  destruct v; simpl; intros [= <-] Hi;
    try (rewrite lookup_ge_None_2 by exact Hi; reflexivity).
  now rewrite string_get_short.
Qed.

Lemma list_setitem_in_range l i v :
  (i < length l)%nat -> list_setitem l i v = Return (<[i:=v]> l).
Proof.
  intros Hi. unfold list_setitem.
  now destruct (Nat.ltb_spec i (length l)); [|lia].
Qed.

(** *** [uti_plot1d_ir] *)

(** X8: when the abscissa is passed, [uti_plot1d_ir] makes no test on the
    ordinate: any [ary], a tuple or an array included, reaches the backend
    as given together with [arx]; with units, the labels are decorated
    with the units as given. *)
Theorem uti_plot1d_ir_with_abscissa :
  (forall ary arx labels st,
     arx <> VNone ->
     uti_plot1d_ir ary arx labels VNone st =
       delegate "uti_plot1d_ir" [ary; arx; labels] st) /\
  (forall ary arx labels units st n l0 l1 u0 u1 t,
     arx <> VNone ->
     units <> VNone ->
     py_len labels = Return n ->
     (if (n <? 3)%nat then t = VStr "" else py_getitem labels 2 = Return t) ->
     py_getitem labels 0 = Return (VStr l0) ->
     py_getitem labels 1 = Return (VStr l1) ->
     py_getitem units 0 = Return (VStr u0) ->
     py_getitem units 1 = Return (VStr u1) ->
     uti_plot1d_ir ary arx labels units st =
       delegate "uti_plot1d_ir"
         [ary; arx;
          VTuple [VStr (((l0 +:+ " [") +:+ u0) +:+ "]");
                  VStr (((l1 +:+ " [") +:+ u1) +:+ "]"); t]] st).
Proof.
  split.
  - intros ary arx labels st Hx. apply is_None_false in Hx.
    unfold uti_plot1d_ir.
    erewrite bind_lift_Return by reflexivity.
    erewrite bind_lift_Return; cycle 1.
    { now rewrite Hx. }
    reflexivity.
  - intros ary arx labels units st n l0 l1 u0 u1 t Hx Hu Hn Ht L0 L1 U0 U1.
    apply is_None_false in Hx, Hu.
    unfold uti_plot1d_ir.
    erewrite bind_lift_Return; cycle 1.
    { rewrite Hu. cbn [negb].
      apply (decorate_labels_str _ _ _ _ _ _ _ _ Hn Ht L0 L1 U0 U1). }
    erewrite bind_lift_Return; cycle 1.
    { now rewrite Hx. }
    reflexivity.
Qed.

Lemma split_pairs_stops good pts bad rest e :
  Forall2 is_pair good pts ->
  (py_getitem bad 0 = Raise e \/
   exists a, py_getitem bad 0 = Return a /\ py_getitem bad 1 = Raise e) ->
  forall d k m arx aryNew,
    length good = (k + d)%nat ->
    (k + m)%nat = length (good ++ bad :: rest) ->
    length arx = (k + m)%nat ->
    length aryNew = (k + m)%nat ->
    split_pairs (VList (good ++ bad :: rest)) (seq k m) arx aryNew = Raise e.
Proof.
  intros HF Hbad. induction d as [|d IH]; intros k m arx aryNew Hk Hm Lx Ly;
    rewrite length_app in Hm; simpl in Hm;
    (destruct m as [|m]; [lia|]); cbn [seq split_pairs py_getitem].
  - replace k with (length good) by lia.
    rewrite list_lookup_middle by reflexivity. cbn [mbind result_bind].
    destruct Hbad as [H0 | (a & H0 & H1)]; rewrite H0; [reflexivity|].
    cbn [mbind result_bind].
    rewrite list_setitem_in_range by lia. cbn [mbind result_bind].
    now rewrite H1.
  - destruct (lookup_lt_is_Some_2 good k) as [p Hp]; [lia|].
    rewrite lookup_app_l by lia. rewrite Hp. cbn [mbind result_bind].
    destruct (Forall2_lookup_l _ _ _ _ _ HF Hp) as ([x y] & _ & Hx & Hy).
    simpl in Hx, Hy. rewrite Hx. cbn [mbind result_bind].
    rewrite list_setitem_in_range by lia. cbn [mbind result_bind].
    rewrite Hy. cbn [mbind result_bind].
    rewrite list_setitem_in_range by lia. cbn [mbind result_bind].
    apply IH; rewrite ?length_insert, ?length_app; simpl; lia.
Qed.

(** X9: when the abscissa is omitted and an element of the list cannot be
    read as a pair (its [[0]] or its [[1]] raises), [uti_plot1d_ir] raises
    the exception of the first such element, and nothing reaches the
    backend: neither a partial curve nor an initialisation. *)
Theorem uti_plot1d_ir_first_bad_pair good pts bad rest e labels st :
  Forall2 is_pair good pts ->
  (py_getitem bad 0 = Raise e \/
   exists a, py_getitem bad 0 = Return a /\ py_getitem bad 1 = Raise e) ->
  uti_plot1d_ir (VList (good ++ bad :: rest)) VNone labels VNone st =
    (Raise e, st).
Proof.
  intros HF Hbad. unfold uti_plot1d_ir.
  erewrite bind_lift_Return by reflexivity.
  apply bind_lift_Raise.
  cbn [is_None]. rewrite check_container_list.
  cbn [mbind result_bind py_len].
  rewrite (split_pairs_stops good pts bad rest e HF Hbad (length good) 0);
    [reflexivity|lia|reflexivity|apply length_replicate..].
Qed.

(** *** [uti_plot1d_m] *)

(** X10: [uti_plot1d_m] hands the curves, the styles and the legend to
    the backend as given.  Without units the labels are unchanged too;
    with units the first two labels get [' [unit]'] appended, with the
    units as given, and the title is [labels[2]] or [''] when there are
    fewer than three labels. *)
Theorem uti_plot1d_m_labels :
  (forall ars labels styles legend st,
     uti_plot1d_m ars labels VNone styles legend st =
       delegate "uti_plot1d_m" [ars; labels; styles; legend] st) /\
  (forall ars labels units styles legend st n l0 l1 u0 u1 t,
     units <> VNone ->
     py_len labels = Return n ->
     (if (n <? 3)%nat then t = VStr "" else py_getitem labels 2 = Return t) ->
     py_getitem labels 0 = Return (VStr l0) ->
     py_getitem labels 1 = Return (VStr l1) ->
     py_getitem units 0 = Return (VStr u0) ->
     py_getitem units 1 = Return (VStr u1) ->
     uti_plot1d_m ars labels units styles legend st =
       delegate "uti_plot1d_m"
         [ars;
          VTuple [VStr (((l0 +:+ " [") +:+ u0) +:+ "]");
                  VStr (((l1 +:+ " [") +:+ u1) +:+ "]"); t];
          styles; legend] st).
Proof.
  split.
  - reflexivity.
  - intros ars labels units styles legend st n l0 l1 u0 u1 t Hu Hn Ht L0 L1 U0 U1.
    apply is_None_false in Hu. unfold uti_plot1d_m.
    erewrite bind_lift_Return; cycle 1.
    { rewrite Hu. cbn [negb].
      apply (decorate_labels_str _ _ _ _ _ _ _ _ Hn Ht L0 L1 U0 U1). }
    reflexivity.
Qed.

(** *** [uti_plot2d] *)

(** X11: with units and both ranges, [uti_plot2d] reads [units[2]] although
    the labels only use the first two units: a two-element [units] raises
    IndexError once both ranges have been rescaled, and nothing reaches
    the backend. *)
Theorem uti_plot2d_needs_three_units
    ar2d x_range y_range labels units st u0 u1 rx ry :
  units <> VNone -> x_range <> VNone -> y_range <> VNone ->
  py_len units = Return 2%nat ->
  py_getitem units 0 = Return u0 ->
  rescale_dim x_range u0 = Return rx ->
  py_getitem units 1 = Return u1 ->
  rescale_dim y_range u1 = Return ry ->
  uti_plot2d ar2d x_range y_range labels units st = (Raise IndexError, st).
Proof.
  intros Hu Hx Hy Hn U0 RX U1 RY. apply is_None_false in Hu, Hx, Hy.
  unfold uti_plot2d. apply bind_lift_Raise.
  rewrite Hu, Hx, Hy, U0. cbn [negb andb mbind result_bind].
  rewrite RX. destruct rx as [x_range' x_unit]. cbn [mbind result_bind].
  rewrite U1. cbn [mbind result_bind].
  rewrite RY. destruct ry as [y_range' y_unit]. cbn [mbind result_bind].
  now rewrite (py_getitem_short units 2 2 Hn).
Qed.

(** *** [uti_plot2d1d] *)

(** X12: [uti_plot2d1d] needs three labels and, with units, two ranges.
    Without units, fewer than three labels raise IndexError; with units, a
    range that is [None] raises TypeError.  In both cases the state is as
    it was. *)
Theorem uti_plot2d1d_preconditions ar2d x y graphs_joined st :
  (forall x_range y_range labels n,
     py_len labels = Return n -> (n < 3)%nat ->
     uti_plot2d1d ar2d x_range y_range x y labels VNone graphs_joined st =
       (Raise IndexError, st)) /\
  (forall y_range labels units,
     units <> VNone ->
     uti_plot2d1d ar2d VNone y_range x y labels units graphs_joined st =
       (Raise TypeError, st)) /\
  (forall x_range labels units xRangeOrig,
     units <> VNone ->
     extent x_range = Return xRangeOrig ->
     uti_plot2d1d ar2d x_range VNone x y labels units graphs_joined st =
       (Raise TypeError, st)).
Proof.
  split; [|split].
  - intros x_range y_range labels n Hn Hlt.
    unfold uti_plot2d1d. apply bind_lift_Raise.
    cbn [is_None negb]. rewrite (py_getitem_short labels n 2 Hn) by lia.
    reflexivity.
  - intros y_range labels units Hu. apply is_None_false in Hu.
    unfold uti_plot2d1d. apply bind_lift_Raise. now rewrite Hu.
  - intros x_range labels units xRangeOrig Hu XO. apply is_None_false in Hu.
    unfold uti_plot2d1d. apply bind_lift_Raise. now rewrite Hu, XO.
Qed.

Lemma num_truediv_by_zero d o :
  (exists a, as_int d = Some a /\ as_int o = Some 0%Z) \/
  (exists g f, d = NFloat g /\ o = NFloat f /\ float_is_zero f = true) ->
  num_truediv d o = Raise ZeroDivisionError.
Proof.
  intros [(a & Hd & Ho) | (g & f & -> & -> & Hz)]; unfold num_truediv.
  - now rewrite Hd, Ho.
  - simpl. now rewrite Hz.
Qed.

(** X13: with units, a cut that is not zero on an axis whose range has
    zero extent raises ZeroDivisionError (the two extents being both ints
    or both floats), for [x] and, when [x] went through, for [y]; nothing
    reaches the backend. *)
Theorem uti_plot2d1d_zero_extent
    ar2d x_range y_range x y labels units graphs_joined st
    xRangeOrig yRangeOrig u0 u1 x_range' x_unit y_range' y_unit :
  units <> VNone ->
  extent x_range = Return xRangeOrig ->
  extent y_range = Return yRangeOrig ->
  py_getitem units 0 = Return u0 ->
  rescale_dim x_range u0 = Return (x_range', x_unit) ->
  py_getitem units 1 = Return u1 ->
  rescale_dim y_range u1 = Return (y_range', y_unit) ->
  (forall d,
     num_ne0 x = true ->
     extent x_range' = Return d ->
     ((exists a, as_int d = Some a /\ as_int xRangeOrig = Some 0%Z) \/
      (exists g f, d = NFloat g /\ xRangeOrig = NFloat f /\
                   float_is_zero f = true)) ->
     uti_plot2d1d ar2d x_range y_range x y labels units graphs_joined st =
       (Raise ZeroDivisionError, st)) /\
  (forall x' d,
     scale_cut x x_range' xRangeOrig = Return x' ->
     num_ne0 y = true ->
     extent y_range' = Return d ->
     ((exists a, as_int d = Some a /\ as_int yRangeOrig = Some 0%Z) \/
      (exists g f, d = NFloat g /\ yRangeOrig = NFloat f /\
                   float_is_zero f = true)) ->
     uti_plot2d1d ar2d x_range y_range x y labels units graphs_joined st =
       (Raise ZeroDivisionError, st)).
Proof.
  intros Hu XO YO U0 RX U1 RY. apply is_None_false in Hu.
  assert (forall c r o d,
            num_ne0 c = true -> extent r = Return d ->
            ((exists a, as_int d = Some a /\ as_int o = Some 0%Z) \/
             (exists g f, d = NFloat g /\ o = NFloat f /\
                          float_is_zero f = true)) ->
            scale_cut c r o = Raise ZeroDivisionError) as Stop.
  { intros c r o d Hc D Hz. unfold scale_cut. rewrite Hc, D.
    cbn [mbind result_bind]. now rewrite (num_truediv_by_zero d o Hz). }
  split.
  - intros d Hx D Hz.
    unfold uti_plot2d1d. apply bind_lift_Raise.
    rewrite Hu, XO. cbn [negb mbind result_bind].
    rewrite YO. cbn [mbind result_bind]. rewrite U0. cbn [mbind result_bind].
    rewrite RX. cbn [mbind result_bind]. rewrite U1. cbn [mbind result_bind].
    rewrite RY. cbn [mbind result_bind].
    now rewrite (Stop x x_range' xRangeOrig d Hx D Hz).
  - intros x' d SX Hy D Hz.
    unfold uti_plot2d1d. apply bind_lift_Raise.
    rewrite Hu, XO. cbn [negb mbind result_bind].
    rewrite YO. cbn [mbind result_bind]. rewrite U0. cbn [mbind result_bind].
    rewrite RX. cbn [mbind result_bind]. rewrite U1. cbn [mbind result_bind].
    rewrite RY. cbn [mbind result_bind].
    rewrite SX. cbn [mbind result_bind].
    now rewrite (Stop y y_range' yRangeOrig d Hy D Hz).
Qed.

End Facade.

Section TwoEnvironments.
Context {FL : PyFloat}.
Variables CO1 CO2 : Collaborators.
Hypothesis same_constructor : forall past b f,
  Backend_constructs (Collaborators := CO1) past b f =
  Backend_constructs (Collaborators := CO2) past b f.
Hypothesis same_methods : forall past name args kwargs,
  Backend_method (Collaborators := CO1) past name args kwargs =
  Backend_method (Collaborators := CO2) past name args kwargs.

(** ** Where [rescale_dim] plays no part *)

Lemma uti_plot_init_same backend fname_format st :
  uti_plot_init (CO := CO1) backend fname_format st =
  uti_plot_init (CO := CO2) backend fname_format st.
Proof.
  destruct backend as [b|]; [|reflexivity].
  unfold uti_plot_init, mbind, M_bind, get_log, emit, set_backend; simpl.
  now rewrite same_constructor.
Qed.

Lemma call_backend_same depth : forall caller attr args kwargs st,
  call_backend (CO := CO1) depth caller attr args kwargs st =
  call_backend (CO := CO2) depth caller attr args kwargs st.
Proof.
  induction depth as [|depth IH]; intros caller attr args kwargs st;
    destruct (_backend st) as [| |b f] eqn:E;
    try (rewrite !call_backend_none by exact E; reflexivity);
    try (rewrite !(call_backend_real _ _ _ _ _ _ b f E), same_methods;
         reflexivity).
  - cbn [call_backend]. unfold mbind, M_bind, get_backend. now rewrite E.
  - rewrite !call_backend_missing by exact E.
    unfold mbind, M_bind. rewrite uti_plot_init_same.
    destruct (uti_plot_init _ _ st) as [[v|e] st1]; [apply IH|reflexivity].
Qed.

Lemma delegate_same name args st :
  delegate (CO := CO1) name args st = delegate (CO := CO2) name args st.
Proof. unfold delegate, mbind, M_bind. now rewrite call_backend_same. Qed.

Lemma bind_lift_same {A} (r : result A) (k1 k2 : A -> M value) st :
  (forall a, k1 a st = k2 a st) ->
  (lift r ≫= k1) st = (lift r ≫= k2) st.
Proof. intros H. destruct r as [a|e]; [apply H|reflexivity]. Qed.

(** X14: [uti_plot_init], [uti_plot_show], [uti_plot1d_ir],
    [uti_plot1d_m], [uti_plot_data_file] and [uti_data_file_plot] never
    consult [rescale_dim], and neither do [uti_plot1d] and [uti_plot2d1d]
    when no units are given: in two environments with the same plotting
    backend, each ends in the same result and the same state however the
    two [rescale_dim] differ. *)
Theorem rescale_dim_is_not_consulted st :
  (forall backend fname_format,
     uti_plot_init (CO := CO1) backend fname_format st =
     uti_plot_init (CO := CO2) backend fname_format st) /\
  uti_plot_show (CO := CO1) st = uti_plot_show (CO := CO2) st /\
  (forall ary arx labels units,
     uti_plot1d_ir (CO := CO1) ary arx labels units st =
     uti_plot1d_ir (CO := CO2) ary arx labels units st) /\
  (forall ars labels units styles legend,
     uti_plot1d_m (CO := CO1) ars labels units styles legend st =
     uti_plot1d_m (CO := CO2) ars labels units styles legend st) /\
  (forall a1 a2 a3 a4 a5 a6 a7 a8 a9 a10 a11,
     uti_plot_data_file (CO := CO1) a1 a2 a3 a4 a5 a6 a7 a8 a9 a10 a11 st =
     uti_plot_data_file (CO := CO2) a1 a2 a3 a4 a5 a6 a7 a8 a9 a10 a11 st) /\
  (forall a1 a2 a3 a4 a5 a6 a7 a8 a9 a10 a11,
     uti_data_file_plot (CO := CO1) a1 a2 a3 a4 a5 a6 a7 a8 a9 a10 a11 st =
     uti_data_file_plot (CO := CO2) a1 a2 a3 a4 a5 a6 a7 a8 a9 a10 a11 st) /\
  (forall ar1d x_range labels,
     uti_plot1d (CO := CO1) ar1d x_range labels VNone st =
     uti_plot1d (CO := CO2) ar1d x_range labels VNone st) /\
  (forall ar2d x_range y_range x y labels graphs_joined,
     uti_plot2d1d (CO := CO1) ar2d x_range y_range x y labels VNone
       graphs_joined st =
     uti_plot2d1d (CO := CO2) ar2d x_range y_range x y labels VNone
       graphs_joined st).
Proof.
  repeat split.
  - intros. apply uti_plot_init_same.
  - apply delegate_same.
  - intros ary arx labels units. unfold uti_plot1d_ir.
    apply bind_lift_same. intros labels'.
    apply bind_lift_same. intros [ary' arx']. apply delegate_same.
  - intros ars labels units styles legend. unfold uti_plot1d_m.
    apply bind_lift_same. intros labels'. apply delegate_same.
  - intros. apply delegate_same.
  - intros. unfold uti_data_file_plot, uti_plot_data_file, mbind, M_bind.
    now rewrite delegate_same.
  - intros ar1d x_range labels. unfold uti_plot1d. cbn [is_None negb].
    apply bind_lift_same. intros [x_range' labels']. apply delegate_same.
  - intros ar2d x_range y_range x y labels graphs_joined.
    unfold uti_plot2d1d. cbn [is_None negb].
    apply bind_lift_same. intros [[[[[[a b] c] d] l2D] l1X] l1Y].
    apply delegate_same.
Qed.

End TwoEnvironments.

Section Errors.
Context {FL : PyFloat} {CO : Collaborators}.
Local Open Scope list_scope.


(** X16: an exception raised by [rescale_dim] is not caught: it reaches
    the caller of [uti_plot1d], [uti_plot2d] and [uti_plot2d1d], and
    nothing reaches the backend. *)
Theorem rescale_dim_exceptions_propagate e st :
  (forall ar1d x_range labels units u0,
     units <> VNone ->
     py_getitem units 0 = Return u0 ->
     rescale_dim x_range u0 = Raise e ->
     uti_plot1d ar1d x_range labels units st = (Raise e, st)) /\
  (forall ar2d x_range y_range labels units u0,
     units <> VNone -> x_range <> VNone -> y_range <> VNone ->
     py_getitem units 0 = Return u0 ->
     rescale_dim x_range u0 = Raise e ->
     uti_plot2d ar2d x_range y_range labels units st = (Raise e, st)) /\
  (forall ar2d x_range y_range x y labels units graphs_joined
          xRangeOrig yRangeOrig u0,
     units <> VNone ->
     extent x_range = Return xRangeOrig ->
     extent y_range = Return yRangeOrig ->
     py_getitem units 0 = Return u0 ->
     rescale_dim x_range u0 = Raise e ->
     uti_plot2d1d ar2d x_range y_range x y labels units graphs_joined st =
       (Raise e, st)).
Proof.
  split; [|split].
  - intros ar1d x_range labels units u0 Hu U0 R. apply is_None_false in Hu.
    unfold uti_plot1d. apply bind_lift_Raise.
    rewrite Hu, U0. cbn [negb mbind result_bind]. now rewrite R.
  - intros ar2d x_range y_range labels units u0 Hu Hx Hy U0 R.
    apply is_None_false in Hu, Hx, Hy.
    unfold uti_plot2d. apply bind_lift_Raise.
    rewrite Hu, Hx, Hy, U0. cbn [negb andb mbind result_bind]. now rewrite R.
  - intros ar2d x_range y_range x y labels units graphs_joined
      xRangeOrig yRangeOrig u0 Hu XO YO U0 R. apply is_None_false in Hu.
    unfold uti_plot2d1d. apply bind_lift_Raise.
    rewrite Hu, XO. cbn [negb mbind result_bind].
    rewrite YO. cbn [mbind result_bind]. rewrite U0. cbn [mbind result_bind].
    now rewrite R.
Qed.

(** X17: with units, a cut that is not zero reaches the backend as a
    float, also when it was passed as an int (the quotient of the extents
    is a float); a cut that is zero keeps the number it was. *)
Theorem scaled_cut_is_float x x_range xRangeOrig x' :
  scale_cut x x_range xRangeOrig = Return x' ->
  if num_ne0 x then exists f, x' = NFloat f else x' = x.
Proof.
  unfold scale_cut. destruct (num_ne0 x); [|congruence].
  destruct (extent x_range) as [d|e]; [|discriminate]. cbn [mbind result_bind].
  assert (forall q, num_truediv d xRangeOrig = Return q -> exists g, q = NFloat g)
    as Quot.
  { unfold num_truediv. intros q.
    destruct (as_int d), (as_int xRangeOrig);
      try (destruct (Z.eqb _ 0); [discriminate|];
           destruct (int_truediv _ _); [|discriminate];
           intros [= <-]; eauto);
      (destruct (to_float d); [|discriminate]); cbn [mbind result_bind];
      (destruct (to_float xRangeOrig); [|discriminate]); cbn [mbind result_bind];
      (destruct (float_is_zero _); [discriminate|]); intros [= <-]; eauto. }
  destruct (num_truediv d xRangeOrig) as [q|e]; [|discriminate].
  destruct (Quot q eq_refl) as (g & ->). cbn [mbind result_bind].
  unfold num_mul. replace (as_int (NFloat g)) with (@None Z) by reflexivity.
  destruct (as_int x);
    (destruct (to_float x); [|discriminate]); cbn [mbind result_bind to_float];
    intros [= <-]; eauto.
Qed.

End Errors.

(** * Runs in the two environments *)

Section Headless.
Local Existing Instance Env.headless.

Lemma uti_plot_init_never_fails_on_backend_witness :
  Backend_constructs [] "TkAgg" (Some "plot_%d.png") = false /\
  uti_plot_init (Some "TkAgg") (Some "plot_%d.png") initial_state =
    (Return VNone,
     mkState _BackendNone
       [EvBackend "TkAgg" (Some "plot_%d.png"); EvPrintExc;
        EvPrint "TkAgg: unable to import specified backend (or its dependency); no plots"]).
Proof.
  split; [reflexivity|].
  exact (proj2 (proj2 (uti_plot_init_never_fails_on_backend initial_state))
           "TkAgg" (Some "plot_%d.png") eq_refl).
Defined.

Lemma uti_plot1d_units_labels_witness :
  (forall range unit, rescale_dim range unit = Return (range, unit)) /\
  uti_plot1d (VList [VNum (NInt 3); VNum (NInt 1); VNum (NInt 4)])
    (VTuple [VNum (NInt 0); VNum (NInt 10); VNum (NInt 5)])
    (VTuple [VStr "E"; VStr "I"]) (VTuple [VStr "eV"; VStr "ph"]) initial_state =
  delegate "uti_plot1d"
    [VList [VNum (NInt 3); VNum (NInt 1); VNum (NInt 4)];
     VTuple [VNum (NInt 0); VNum (NInt 10); VNum (NInt 5)];
     VTuple [VStr "E [eV]"; VStr "I [ph]"; VStr ""]] initial_state.
Proof.
  split; [reflexivity|].
  exact (proj2 uti_plot1d_units_labels (fun _ _ => eq_refl) _ initial_state).
Defined.

End Headless.

Section Plotting.
Local Existing Instance Env.plotting.
Import Env.
Local Open Scope Z_scope.

Lemma missing_backend_initialises_once_witness :
  _backend initial_state = _BackendMissing /\
  call_backend 1 "uti_plot_show" "uti_plot_show" [] [("block", VNum (NBool true))]
    initial_state =
    (Return VNone,
     mkState (Backend "<default>" None)
       [EvBackend "<default>" None; EvCall "uti_plot_show" [] []]).
Proof.
  split; [reflexivity|].
  exact (proj1 (missing_backend_initialises_once 0 "uti_plot_show" []
                  [("block", VNum (NBool true))] initial_state eq_refl)).
Defined.

Lemma uti_plot1d_ir_container_test_witness :
  let points := VTuple [VTuple [int 1; int 1]; VTuple [int 2; int 4]] in
  isinstance points list_t = false /\
  uti_plot1d_ir points VNone (VTuple [VStr "s"; VStr "x"]) VNone initial_state =
    (Raise (NameError "array"), initial_state).
Proof.
  intros points. split; [reflexivity|].
  exact (proj2 (proj2 uti_plot1d_ir_container_test) points _ initial_state eq_refl).
Defined.

Lemma uti_plot1d_ir_splits_lists_only_witness :
  let points := [VTuple [lit 5 1; int 7]; VList [int 2; lit 25 2; int 0]; VStr "ab"] in
  let labels := VTuple [VStr "s"; VStr "x"] in
  Forall2 is_pair points [(lit 5 1, int 7); (int 2, lit 25 2); (VStr "a", VStr "b")] /\
  uti_plot1d_ir (VList points) VNone labels VNone initial_state =
    delegate "uti_plot1d_ir"
      [VList [int 7; lit 25 2; VStr "b"]; VList [lit 5 1; int 2; VStr "a"]; labels]
      initial_state.
Proof.
  intros points labels.
  assert (Forall2 is_pair points
            [(lit 5 1, int 7); (int 2, lit 25 2); (VStr "a", VStr "b")]) as HF
    by (repeat constructor).
  split; [exact HF|].
  exact (proj1 (proj1 uti_plot1d_ir_splits_lists_only points _ labels initial_state HF)).
Defined.

Lemma uti_plot2d_rescales_iff_units_and_both_ranges_witness :
  let labels := VTuple [VStr "Horizontal Position"; VStr "Vertical Position"; VStr "Intensity"] in
  let units := VTuple [VStr "m"; VStr "m"; VStr "ph/s/.1%bw/mm^2"] in
  let x_range := VList [int (-1); int 1; int 101] in
  let y_range := VList [int (-2); int 2; int 51] in
  uti_plot2d (VObject 0) x_range VNone labels units initial_state =
    delegate "uti_plot2d" [VObject 0; x_range; VNone; labels] initial_state /\
  uti_plot2d (VObject 0) x_range y_range labels units initial_state =
    delegate "uti_plot2d"
      [VObject 0; VList [int (-1000); int 1000; int 101];
       VList [int (-2000); int 2000; int 51];
       VTuple [VStr "Horizontal Position [mm]"; VStr "Vertical Position [mm]";
               VStr "Intensity"]] initial_state.
Proof.
  intros labels units x_range y_range. split.
  - exact (proj1 uti_plot2d_rescales_iff_units_and_both_ranges
             (VObject 0) x_range VNone labels units initial_state
             (or_intror (or_intror eq_refl))).
  - refine (proj2 uti_plot2d_rescales_iff_units_and_both_ranges
              (VObject 0) x_range y_range labels units initial_state
              3%nat (VStr "m") (VStr "m") (VStr "ph/s/.1%bw/mm^2")
              "Horizontal Position" "Vertical Position" (VStr "Intensity")
              (VList [int (-1000); int 1000; int 101]) "mm"
              (VList [int (-2000); int 2000; int 51]) "mm"
              _ _ _ eq_refl eq_refl eq_refl eq_refl eq_refl eq_refl eq_refl eq_refl eq_refl);
      discriminate.
Defined.

(** [uti_plot2d1d] on ranges in metres, cut at x = 0.001 m: the range
    becomes 0 .. 2 mm and the cut 1.0 mm. *)
Lemma uti_plot2d1d_scales_nonzero_cuts_witness :
  let labels := VTuple [VStr "X"; VStr "Y"; VStr "I"] in
  let units := VTuple [VStr "m"; VStr "m"; VStr "a.u."] in
  let x_range := VList [lit 0 0; lit 2 3; int 5] in
  let y_range := VList [lit (-1) 3; lit 1 3; int 5] in
  let x := num 1 3 in
  let y := NInt 0 in
  num_ne0 x = true /\ num_ne0 y = false /\
  exists labels',
    uti_plot2d1d (VObject 0) x_range y_range x y labels units (VNum (NBool true))
      initial_state =
    delegate "uti_plot2d1d"
      [VObject 0; VList [lit 0 0; lit 2 0; int 5]; VList [lit (-1) 0; lit 1 0; int 5];
       lit 1 0; int 0; labels'; VNum (NBool true)] initial_state.
Proof.
  intros labels units x_range y_range x y.
  split; [reflexivity|]. split; [reflexivity|].
  refine (uti_plot2d1d_scales_nonzero_cuts
            (VObject 0) x_range y_range x y labels units (VNum (NBool true))
            initial_state (num 2 3) (num 2 3) (VStr "m") (VStr "m") "a.u."
            (VList [lit 0 0; lit 2 0; int 5]) (VList [lit (-1) 0; lit 1 0; int 5])
            "mm" "mm" "X" "Y" "I" (num 1 0) (NInt 0)
            _ _ _ eq_refl _ eq_refl _ eq_refl eq_refl eq_refl eq_refl _ eq_refl).
  - discriminate.
  - reflexivity.
  - reflexivity.
  - reflexivity.
  - reflexivity.
  - exists (num 2 0), (num 1000 0). repeat split.
Defined.

(** The same plot cut at y = 0.00025 m, and without units. *)
Lemma uti_plot2d1d_cut_titles_witness :
  let labels := VTuple [VStr "X"; VStr "Y"; VStr "I"] in
  let units := VTuple [VStr "m"; VStr "m"; VStr "a.u."] in
  let x_range := VList [lit 0 0; lit 2 3; int 5] in
  let y_range := VList [lit (-1) 3; lit 1 3; int 5] in
  let x := NInt 0 in
  let y := num 25 5 in
  uti_plot2d1d (VObject 0) x_range y_range x y labels units (VNum (NBool true))
    initial_state =
    delegate "uti_plot2d1d"
      [VObject 0; VList [lit 0 0; lit 2 0; int 5]; VList [lit (-1) 0; lit 1 0; int 5];
       int 0; lit 25 2;
       VList [VTuple [VStr "X [mm]"; VStr "Y [mm]"; VStr "I"];
              VTuple [VStr "X [mm]"; VStr "I [a.u.]"; VStr "At Y: 0.25 mm"];
              VTuple [VStr "Y [mm]"; VStr "I [a.u.]"; VStr "At X: 0"]];
       VNum (NBool true)] initial_state /\
  uti_plot2d1d (VObject 0) x_range y_range x y labels VNone (VNum (NBool true))
    initial_state =
    delegate "uti_plot2d1d"
      [VObject 0; x_range; y_range; int 0; lit 25 5;
       VList [VTuple [VStr "X"; VStr "Y"; VStr "I"];
              VTuple [VStr "X"; VStr "I"; VStr "At Y: 0.00025"];
              VTuple [VStr "Y"; VStr "I"; VStr "At X: 0"]];
       VNum (NBool true)] initial_state.
Proof.
  intros labels units x_range y_range x y. split.
  - refine (proj1 uti_plot2d1d_cut_titles
              (VObject 0) x_range y_range x y labels units (VNum (NBool true))
              initial_state (num 2 3) (num 2 3) (VStr "m") (VStr "m") "a.u."
              (VList [lit 0 0; lit 2 0; int 5]) (VList [lit (-1) 0; lit 1 0; int 5])
              "mm" "mm" "X" "Y" "I" (NInt 0) (num 25 2)
              _ _ _ eq_refl _ eq_refl _ _ _ eq_refl eq_refl eq_refl eq_refl).
    + discriminate.
    + reflexivity.
    + reflexivity.
    + reflexivity.
    + reflexivity.
    + reflexivity.
    + reflexivity.
  - exact (proj1 (proj2 uti_plot2d1d_cut_titles)
             (VObject 0) x_range y_range x y labels (VNum (NBool true))
             initial_state "X" "Y" "I" eq_refl eq_refl eq_refl).
Defined.

End Plotting.

(** ** The float instance on a few values *)

Example str_one_tenth : IEEE.str (IEEE.of_decimal false 1 1) = "0.1".
Proof. vm_compute. reflexivity. Qed.

Example str_ten_to_16 : option_map IEEE.str (IEEE.of_int (10 ^ 16)) = Some "1e+16".
Proof. vm_compute. reflexivity. Qed.

Example str_two_thirds : option_map IEEE.str (IEEE.truediv 2 3) = Some "0.6666666666666666".
Proof. vm_compute. reflexivity. Qed.

Example round6_keeps_six_digits :
  IEEE.str (IEEE.round6 (IEEE.of_decimal false 12345678 7)) = "1.234568".
Proof. vm_compute. reflexivity. Qed.

Example int_overflows_float : IEEE.of_int (2 ^ 1024) = None.
Proof. vm_compute. reflexivity. Qed.

(** ** Runs for the further properties *)

Section PlottingRuns.
Local Existing Instance Env.plotting.
Import Env.
Local Open Scope Z_scope.

Lemma handle_never_reverts_witness :
  let st := mkState (Backend "Agg" None) [EvBackend "Agg" None] in
  uti_plot_init (Some "Agg") None initial_state = (Return VNone, st) /\
  _backend st <> _BackendMissing /\
  _backend (delegate "uti_plot_show" [] st).2 = _backend st.
Proof.
  intros st. split; [reflexivity|]. split.
  - exact (proj1 handle_never_reverts (Some "Agg") None initial_state VNone st
             eq_refl).
  - refine (proj2 (proj2 handle_never_reverts "uti_plot_show" [] st) _).
    discriminate.
Defined.

Lemma explicit_init_then_call_witness :
  let st := mkState _BackendNone [] in
  Backend_constructs (log st) "Agg" (Some "fig%d.png") = true /\
  (uti_plot_init (Some "Agg") (Some "fig%d.png");; delegate "uti_plot_show" []) st =
    (Return VNone,
     mkState (Backend "Agg" (Some "fig%d.png"))
       [EvBackend "Agg" (Some "fig%d.png"); EvCall "uti_plot_show" [] []]).
Proof.
  intros st. split; [reflexivity|].
  exact (explicit_init_then_call "Agg" (Some "fig%d.png") "uti_plot_show" [] st
           eq_refl).
Defined.

Lemma lazy_init_is_default_init_witness :
  _backend initial_state = _BackendMissing /\
  delegate "uti_plot_show" [] initial_state =
    (uti_plot_init (Some DEFAULT_BACKEND) None;; delegate "uti_plot_show" [])
      initial_state.
Proof.
  split; [reflexivity|].
  exact (lazy_init_is_default_init "uti_plot_show" [] initial_state eq_refl).
Defined.

Lemma module_functions_return_None_witness :
  let st' := mkState (Backend "<default>" None)
               [EvBackend "<default>" None; EvCall "uti_plot_show" [] []] in
  uti_plot_show initial_state = (Return VNone, st') /\ VNone = VNone.
Proof.
  intros st'. split; [reflexivity|].
  exact (proj1 (proj2 (module_functions_return_None VNone initial_state st'))
           eq_refl).
Defined.

Lemma uti_plot1d_ir_with_abscissa_witness :
  let ary := VTuple [int 1; int 4; int 9] in
  let arx := VTuple [int 1; int 2; int 3] in
  let labels := VTuple [VStr "s"; VStr "x"] in
  arx <> VNone /\
  uti_plot1d_ir ary arx labels VNone initial_state =
    delegate "uti_plot1d_ir" [ary; arx; labels] initial_state /\
  uti_plot1d_ir ary arx labels (VTuple [VStr "m"; VStr "mm"]) initial_state =
    delegate "uti_plot1d_ir"
      [ary; arx; VTuple [VStr "s [m]"; VStr "x [mm]"; VStr ""]] initial_state.
Proof.
  intros ary arx labels.
  assert (arx <> VNone) as Hx by discriminate.
  split; [exact Hx|]. split.
  - exact (proj1 uti_plot1d_ir_with_abscissa ary arx labels initial_state Hx).
  - refine (proj2 uti_plot1d_ir_with_abscissa ary arx labels
              (VTuple [VStr "m"; VStr "mm"]) initial_state
              2%nat "s" "x" "m" "mm" (VStr "") Hx _
              eq_refl eq_refl eq_refl eq_refl eq_refl eq_refl).
    discriminate.
Defined.

Lemma uti_plot1d_ir_first_bad_pair_witness :
  let good := [VList [int 1; int 2]] in
  let bad := VList [int 3] in
  Forall2 is_pair good [(int 1, int 2)] /\
  py_getitem bad 0 = Return (int 3) /\ py_getitem bad 1 = Raise IndexError /\
  uti_plot1d_ir (VList (good ++ bad :: [VList [int 5; int 6]])) VNone
    (VTuple [VStr "s"; VStr "x"]) VNone initial_state =
    (Raise IndexError, initial_state).
Proof.
  intros good bad.
  assert (Forall2 is_pair good [(int 1, int 2)]) as HF by (repeat constructor).
  split; [exact HF|]. split; [reflexivity|]. split; [reflexivity|].
  exact (uti_plot1d_ir_first_bad_pair good [(int 1, int 2)] bad
           [VList [int 5; int 6]] IndexError _ initial_state HF
           (or_intror (ex_intro _ (int 3) (conj eq_refl eq_refl)))).
Defined.

Lemma uti_plot1d_m_labels_witness :
  let ars := VList [VList [VList [int 1; int 2]; VList [int 0; int 1; int 2]]] in
  uti_plot1d_m ars (VTuple [VStr "X"; VStr "Y"]) (VTuple [VStr "m"; VStr "a.u."])
    (VList [VStr "-b"]) VNone initial_state =
    delegate "uti_plot1d_m"
      [ars; VTuple [VStr "X [m]"; VStr "Y [a.u.]"; VStr ""]; VList [VStr "-b"]; VNone]
      initial_state.
Proof.
  intros ars.
  refine (proj2 uti_plot1d_m_labels ars (VTuple [VStr "X"; VStr "Y"])
            (VTuple [VStr "m"; VStr "a.u."]) (VList [VStr "-b"]) VNone
            initial_state 2%nat "X" "Y" "m" "a.u." (VStr "") _
            eq_refl eq_refl eq_refl eq_refl eq_refl eq_refl).
  discriminate.
Defined.

Lemma uti_plot2d_needs_three_units_witness :
  let units := VTuple [VStr "m"; VStr "m"] in
  let x_range := VList [int (-1); int 1; int 101] in
  let y_range := VList [int (-2); int 2; int 51] in
  py_len units = Return 2%nat /\
  uti_plot2d (VObject 0) x_range y_range (VTuple [VStr "X"; VStr "Y"]) units
    initial_state = (Raise IndexError, initial_state).
Proof.
  intros units x_range y_range. split; [reflexivity|].
  refine (uti_plot2d_needs_three_units (VObject 0) x_range y_range _ units
            initial_state (VStr "m") (VStr "m") _ _ _ _ _
            eq_refl eq_refl eq_refl eq_refl eq_refl); discriminate.
Defined.

Lemma uti_plot2d1d_preconditions_witness :
  let labels := VTuple [VStr "X"; VStr "Y"] in
  py_len labels = Return 2%nat /\
  uti_plot2d1d (VObject 0) (VList [int 0; int 1; int 2]) (VList [int 0; int 1; int 2])
    (NInt 0) (NInt 0) labels VNone (VNum (NBool true)) initial_state =
    (Raise IndexError, initial_state).
Proof.
  intros labels. split; [reflexivity|].
  refine (proj1 (uti_plot2d1d_preconditions (VObject 0) (NInt 0) (NInt 0)
                   (VNum (NBool true)) initial_state)
            _ _ labels 2%nat eq_refl _).
  lia.
Defined.

Lemma uti_plot2d1d_zero_extent_witness :
  let x_range := VList [int 3; int 3; int 1] in
  let y_range := VList [int 0; int 1; int 2] in
  let units := VTuple [VStr "m"; VStr "m"; VStr "a.u."] in
  extent x_range = Return (NInt 0) /\ num_ne0 (NInt 1) = true /\
  uti_plot2d1d (VObject 0) x_range y_range (NInt 1) (NInt 0)
    (VTuple [VStr "X"; VStr "Y"; VStr "I"]) units (VNum (NBool true))
    initial_state = (Raise ZeroDivisionError, initial_state).
Proof.
  intros x_range y_range units. split; [reflexivity|]. split; [reflexivity|].
  refine (proj1 (uti_plot2d1d_zero_extent (VObject 0) x_range y_range
                   (NInt 1) (NInt 0) _ units (VNum (NBool true)) initial_state
                   (NInt 0) (NInt 1) (VStr "m") (VStr "m")
                   (VList [int 3000; int 3000; int 1]) (VStr "mm")
                   (VList [int 0; int 1000; int 2]) (VStr "mm")
                   _ eq_refl eq_refl eq_refl eq_refl eq_refl eq_refl)
            (NInt 0) eq_refl eq_refl
            (or_introl (ex_intro _ 0 (conj eq_refl eq_refl)))).
  discriminate.
Defined.

Lemma rescale_dim_is_not_consulted_witness :
  let ars := VList [VList [VList [int 1; int 2]; VList [int 0; int 1; int 2]]] in
  let labels := VTuple [VStr "X"; VStr "Y"] in
  let units := VTuple [VStr "m"; VStr "a.u."] in
  uti_plot1d_m (CO := plotting) ars labels units VNone VNone initial_state =
  uti_plot1d_m (CO := plotting_without_rescale) ars labels units VNone VNone
    initial_state.
Proof.
  intros ars labels units.
  exact (proj1 (proj2 (proj2 (proj2
           (rescale_dim_is_not_consulted plotting plotting_without_rescale
              (fun _ _ _ => eq_refl) (fun _ _ _ _ => eq_refl) initial_state))))
           ars labels units VNone VNone).
Defined.

End PlottingRuns.

Section HeadlessRuns.
Local Existing Instance Env.headless.
Import Env.
Local Open Scope Z_scope.


End HeadlessRuns.

Section FailingRescale.
Local Existing Instance Env.plotting_without_rescale.
Import Env.
Local Open Scope Z_scope.

Lemma rescale_dim_exceptions_propagate_witness :
  let units := VTuple [VStr "eV"; VStr "ph"] in
  let x_range := VList [int 0; int 10; int 5] in
  rescale_dim x_range (VStr "eV") = Raise (ExternalError "rescale_dim") /\
  uti_plot1d (VObject 0) x_range (VTuple [VStr "E"; VStr "I"]) units initial_state =
    (Raise (ExternalError "rescale_dim"), initial_state).
Proof.
  intros units x_range. split; [reflexivity|].
  refine (proj1 (rescale_dim_exceptions_propagate (ExternalError "rescale_dim")
                   initial_state)
            (VObject 0) x_range _ units (VStr "eV") _ eq_refl eq_refl).
  discriminate.
Defined.

End FailingRescale.

Section ScaledCut.
Local Existing Instance Env.plotting.
Import Env.
Local Open Scope Z_scope.

Lemma scaled_cut_is_float_witness :
  scale_cut (NInt 1) (VList [int 0; int 2000; int 5]) (NInt 2) = Return (num 1000 0) /\
  exists f, num 1000 0 = NFloat f.
Proof.
  split; [reflexivity|].
  exact (scaled_cut_is_float (NInt 1) (VList [int 0; int 2000; int 5]) (NInt 2)
           (num 1000 0) eq_refl).
Defined.

End ScaledCut.
